(** * Dynamic user provisioning and sign-in resolution (dm-rio/octo)

    A shallow embedding of

    - [providers/dynamicUserEntityProvider.ts] (class
      [DynamicUserEntityProvider]: the in-memory user cache that republishes
      its whole content to the catalog),
    - [modules/dynamicUsersModule.ts] (the module-level provider variable and
      its getter),
    - [modules/rhdhSignInResolvers.ts] (the resolvers
      [oidcLdapUuidMatchingAnnotation] and [oauth2TokenClaimResolver], the
      latter with its claim decoding and its bounded retry loop),

    followed by the properties of the specification that concern them.

    JavaScript values are modelled as plain data, exceptions as a result
    type, the mutable provider / catalog / clock as explicit state, and every
    call that leaves the process (catalog lookup, catalog mutation, timer,
    logger, console) is recorded in a chronological trace. *)

From Stdlib Require Import String Ascii List Bool Arith ZArith Lia DecimalString Permutation.
Import ListNotations.
Local Open Scope string_scope.
Local Open Scope list_scope.

Set Implicit Arguments.
Set Warnings "-register-all,-notation-for-abbreviation".

(* ===================================================================== *)
(** ** JavaScript values *)
(* ===================================================================== *)

Module Js.

(** Plain-data JavaScript values: what [JSON.parse] returns, what object
    literals build, and what a [catch] clause can receive.  A number is
    kept as its canonical rendering [String(n)], which identifies it (the
    two zeros render alike and are [===]; [NaN] is the one number that is
    not [===] to itself).  An object is the list of its properties, the
    first binding of a name being the visible one.  An [Error] instance is
    the object made of its [name] and [message] (see [newError]); methods
    and other prototype members are outside the model. *)
Inductive value : Type :=
| VUndefined
| VNull
| VBool (b : bool)
| VNum (rendering : string)
| VStr (s : string)
| VArr (elems : list value)
| VObj (props : list (string * value)).

(** [typeof v === 'object' && v !== null] *)
Definition is_object (v : value) : bool :=
  match v with
  | VArr _ | VObj _ => true
  | _ => false
  end.

(** [v === undefined || v === null], the test behind [?.] and [??]. *)
Definition is_nullish (v : value) : bool :=
  match v with
  | VUndefined | VNull => true
  | _ => false
  end.

Fixpoint assoc (k : string) (props : list (string * value)) : option value :=
  match props with
  | [] => None
  | (k', v) :: rest => if String.eqb k k' then Some v else assoc k rest
  end.

(** [k in v] for an object [v] (named data properties only). *)
Definition has_property (k : string) (v : value) : bool :=
  match v with
  | VObj props => match assoc k props with Some _ => true | None => false end
  | _ => false
  end.

(** [v?.[k]]: [undefined] on a nullish [v], the property otherwise; a
    value without that data property gives [undefined]. *)
Definition get (v : value) (k : string) : value :=
  match v with
  | VObj props => match assoc k props with Some x => x | None => VUndefined end
  | _ => VUndefined
  end.

(** [a ?? b] *)
Definition nullish_or (a b : value) : value :=
  if is_nullish a then b else a.

(** [!v] is [negb (truthy v)]. *)
Definition truthy (v : value) : bool :=
  match v with
  | VUndefined | VNull => false
  | VBool b => b
  | VNum r => negb (String.eqb r "0" || String.eqb r "NaN")
  | VStr s => negb (String.eqb s "")
  | VArr _ | VObj _ => true
  end.

(** [a === b] for two values that do not alias: primitives compare by
    value, two separately built objects or arrays are never identical. *)
Definition strict_eq (a b : value) : bool :=
  match a, b with
  | VUndefined, VUndefined => true
  | VNull, VNull => true
  | VBool x, VBool y => Bool.eqb x y
  | VNum x, VNum y => String.eqb x y && negb (String.eqb x "NaN")
  | VStr x, VStr y => String.eqb x y
  | _, _ => false
  end.

Fixpoint join (sep : string) (parts : list string) : string :=
  match parts with
  | [] => ""
  | [p] => p
  | p :: rest => p ++ sep ++ join sep rest
  end.

(** [String(v)], the conversion a template literal applies to [${v}].
    Inside an array, [null] and [undefined] render as the empty string. *)
Fixpoint to_string (v : value) : string :=
  match v with
  | VUndefined => "undefined"
  | VNull => "null"
  | VBool true => "true"
  | VBool false => "false"
  | VNum r => r
  | VStr s => s
  | VArr elems =>
      join "," (map (fun e => if is_nullish e then "" else to_string e) elems)
  | VObj _ => "[object Object]"
  end.

(** [new Error(message)], and the built-in [TypeError]. *)
Definition newError (message : string) : value :=
  VObj [("name", VStr "Error"); ("message", VStr message)].

Definition newTypeError (message : string) : value :=
  VObj [("name", VStr "TypeError"); ("message", VStr message)].

(** [String(n)] for a natural number. *)
Definition nat_to_string (n : nat) : string :=
  NilZero.string_of_uint (Nat.to_uint n).

(** [s.split(sep)] for a one-character separator: never empty, and its
    pieces joined by [sep] give [s] back. *)
Fixpoint split (sep : ascii) (s : string) : list string :=
  match s with
  | EmptyString => [""]
  | String c rest =>
      if Ascii.eqb c sep then "" :: split sep rest
      else match split sep rest with
           | [] => [String c ""]
           | piece :: pieces => String c piece :: pieces
           end
  end.

(** Does the character occur in the string? *)
Fixpoint occurs (c : ascii) (s : string) : bool :=
  match s with
  | EmptyString => false
  | String c' rest => Ascii.eqb c' c || occurs c rest
  end.

(** A [Map<string, V>]: bindings in insertion order, one per key.
    [set] on a key already there keeps its position. *)
Section JsMap.
Variable V : Type.

Definition Map := list (string * V).

Fixpoint map_get (k : string) (m : Map) : option V :=
  match m with
  | [] => None
  | (k', v) :: rest => if String.eqb k k' then Some v else map_get k rest
  end.

Fixpoint map_set (k : string) (v : V) (m : Map) : Map :=
  match m with
  | [] => [(k, v)]
  | (k', v') :: rest =>
      if String.eqb k k' then (k, v) :: rest
      else (k', v') :: map_set k v rest
  end.

Fixpoint map_delete (k : string) (m : Map) : Map :=
  match m with
  | [] => []
  | (k', v') :: rest =>
      if String.eqb k k' then rest else (k', v') :: map_delete k rest
  end.

(** [Array.from(m.values())] *)
Definition map_values (m : Map) : list V := List.map snd m.

Definition map_keys (m : Map) : list string := List.map fst m.
End JsMap.

End Js.

Import Js.

(* ===================================================================== *)
(** ** Catalog data model *)
(* ===================================================================== *)

(** [Entity] of [@backstage/catalog-model], with the fields this code reads
    or writes.  [namespace] is optional in that type. *)
Record EntityMeta := {
  name : string;
  namespace : option string;
  annotations : list (string * string)
}.

Record Entity := {
  apiVersion : string;
  kind : string;
  metadata : EntityMeta;
  spec : value
}.

(** [DEFAULT_NAMESPACE] of [@backstage/catalog-model]. *)
Definition DEFAULT_NAMESPACE : string := "default".

Record DeferredEntity := {
  entity : Entity;
  locationKey : string
}.

(** The argument of [EntityProviderConnection.applyMutation]: a tagged
    union on [type]. *)
Inductive EntityProviderMutation :=
| MutationFull (entities : list DeferredEntity)
| MutationDelta (added removed : list DeferredEntity).

(** The query of [AuthResolverContext.signInWithCatalogUser] and its
    options. *)
Inductive SignInQuery :=
| QueryEntityRef (entityRef : string)
| QueryAnnotations (annotations : list (string * value)).

Record SignInOptions := {
  dangerousEntityRefFallback : option value
}.

Record BackstageSignInResult := {
  token : string
}.

(** What a resolver receives: [info.profile] and [info.result.fullProfile]
    (an [OidcAuthResult]; the code guards it with [?.] in one place). *)
Record Profile := {
  email : option string
}.

Record TokenSet := {
  access_token : option string;
  id_token : option string
}.

Record FullProfile := {
  tokenset : TokenSet;
  userinfo : value
}.

Record SignInInfo := {
  profile : Profile;
  fullProfile : option FullProfile
}.

(* ===================================================================== *)
(** ** Exceptions and state *)
(* ===================================================================== *)

(** The outcome of a call: a value, or a thrown JavaScript value. *)
Inductive Res (A : Type) : Type :=
| Ok (a : A)
| Throw (err : value).

Arguments Ok {A} a.
Arguments Throw {A} err.

(** A computation over a state [S]; what was written before a [throw]
    stays written. *)
Definition M (S A : Type) : Type := S -> Res A * S.

Definition ret {S A} (a : A) : M S A := fun s => (Ok a, s).

Definition throw {S A} (err : value) : M S A := fun s => (Throw err, s).

Definition bind {S A B} (m : M S A) (k : A -> M S B) : M S B :=
  fun s =>
    match m s with
    | (Ok a, s') => k a s'
    | (Throw err, s') => (Throw err, s')
    end.

(** [try { body } catch (err) { handler }] *)
Definition try_catch {S A} (body : M S A) (handler : value -> M S A) : M S A :=
  fun s =>
    match body s with
    | (Ok a, s') => (Ok a, s')
    | (Throw err, s') => handler err s'
    end.

Definition lift {S A} (r : Res A) : M S A := fun s => (r, s).

Declare Scope js_scope.
Delimit Scope js_scope with js.
Notation "x <- m ;; k" := (bind m (fun x => k))
  (at level 61, m at next level, right associativity) : js_scope.
Notation "m ;; k" := (bind m (fun _ => k))
  (at level 61, right associativity) : js_scope.
Local Open Scope js_scope.

(** The options of the resolvers that look a user up by name (their
    [optionsSchema] has the one optional flag). *)
Module ByName.
Record Options := {
  dangerouslyAllowSignInWithoutUserInCatalog : option bool
}.
End ByName.

(* ===================================================================== *)
(** ** Test doubles

    Concrete catalogs, payloads and library functions, used where a
    property is run on an example. *)
(* ===================================================================== *)

Module Stub.

Definition notFound : value :=
  VObj [("name", VStr "NotFoundError"); ("message", VStr "no such user")].

Definition conflict : value :=
  VObj [("name", VStr "ConflictError"); ("message", VStr "boom")].

(** A lookup that fails the same way on every call. *)
Definition signInFails (err : value)
    : SignInQuery -> option SignInOptions -> unit -> Res BackstageSignInResult * unit :=
  fun _ _ w => (Throw err, w).

(** A lookup that reports "not found" until it has been called [misses]
    times; the world counts the calls. *)
Definition signInAfter (misses : nat)
    : SignInQuery -> option SignInOptions -> nat -> Res BackstageSignInResult * nat :=
  fun _ _ calls =>
    if (calls <? misses)%nat then (Throw notFound, S calls)
    else (Ok {| token := "t" |}, S calls).

Definition elapseCounted : Z -> nat -> nat := fun _ calls => calls.

Definition applyMutationOk : nat -> EntityProviderMutation -> unit -> Res unit * unit :=
  fun _ _ w => (Ok tt, w).

Definition applyMutationFails (err : value)
    : nat -> EntityProviderMutation -> unit -> Res unit * unit :=
  fun _ _ w => (Throw err, w).

Definition elapse : Z -> unit -> unit := fun _ w => w.

(** A payload decoder that answers [claims] whatever the segment. *)
Definition parseAs (claims : value) : option string -> Res value :=
  fun _ => Ok claims.

Definition decodeJwtAs (payload : value) : string -> Res value :=
  fun _ => Ok payload.

Definition stringifyEntityRef (e : Entity) : string :=
  "user:" ++ match namespace (metadata e) with Some ns => ns | None => "default" end
  ++ "/" ++ name (metadata e).

(** [{"groups":["a"],"resource_access":{"app":{"roles":["b"]}}}] *)
Definition payloadApp : value :=
  VObj [("groups", VArr [VStr "a"]);
        ("resource_access", VObj [("app", VObj [("roles", VArr [VStr "b"])])])].

(** [{"groups":["a"],"resource_access":{"octo":{"roles":["b"]}}}] *)
Definition payloadOcto : value :=
  VObj [("groups", VArr [VStr "a"]);
        ("resource_access", VObj [("octo", VObj [("roles", VArr [VStr "b"])])])].

Definition jdoe : Entity :=
  {| apiVersion := "backstage.io/v1alpha1";
     kind := "User";
     metadata := {| name := "jdoe"; namespace := Some "default"; annotations := [] |};
     spec := VObj [] |}.

Definition asmith : Entity :=
  {| apiVersion := "backstage.io/v1alpha1";
     kind := "User";
     metadata := {| name := "asmith"; namespace := Some "default"; annotations := [] |};
     spec := VObj [] |}.

Definition info (address : string) : SignInInfo :=
  {| profile := {| email := Some address |};
     fullProfile :=
       Some {| tokenset := {| access_token := Some "h.p.s"; id_token := Some "h.p.s" |};
               userinfo := VObj [("ldap_uuid", VStr "u-1")] |} |}.

Definition applyMutationCounted : nat -> EntityProviderMutation -> nat -> Res unit * nat :=
  fun _ _ calls => (Ok tt, calls).

(** The headers of a proxied request: both forwarded names are set. *)
Definition headers (h : string) : option string :=
  if String.eqb h "x-forwarded-preferred-username" then Some "jdoe"
  else if String.eqb h "x-forwarded-user" then Some "john"
  else if String.eqb h "x-remote-user" then Some "jd"
  else None.

End Stub.

(* ===================================================================== *)
(** ** The program *)
(* ===================================================================== *)

Section Program.

(** *** What lies outside the repository

    The catalog and the clock form a [World]; calls into them take a world
    and give the next one.  [JSON.parse], [atob], [decodeJwt] (jose) and
    [stringifyEntityRef] (catalog-model) are pure library functions. *)

Variable World : Type.
Variable Connection : Type.

(** [ctx.signInWithCatalogUser(query, options)] *)
Variable signInWithCatalogUser :
  SignInQuery -> option SignInOptions -> World -> Res BackstageSignInResult * World.

(** [connection.applyMutation(mutation)] *)
Variable applyMutation :
  Connection -> EntityProviderMutation -> World -> Res unit * World.

(** What [ms] milliseconds of waiting do to the world. *)
Variable elapse : Z -> World -> World.

(** [JSON.parse(atob(segment))]; [segment] is [None] for [undefined]. *)
Variable parsePayload : option string -> Res value.

Variable decodeJwt : string -> Res value.

Variable stringifyEntityRef : Entity -> string.

(** *** Observable calls *)

Inductive LogLevel := LogDebug | LogWarn | LogError.

Inductive Event :=
| EvSignIn (query : SignInQuery) (options : option SignInOptions)
| EvApplyMutation (conn : Connection) (mutation : EntityProviderMutation)
| EvSleep (ms : Z)
| EvLogger (level : LogLevel) (message : string)
| EvConsoleError (message : string) (err : value).

Record Runtime := {
  world : World;
  trace : list Event
}.

Definition record (ev : Event) (rt : Runtime) : Runtime :=
  {| world := world rt; trace := trace rt ++ [ev] |}.

(** *** providers/dynamicUserEntityProvider.ts *)

Record DynamicUserEntityProvider := {
  connection : option Connection;
  userCache : Map DeferredEntity
}.

(** The state a method runs in: its receiver and the runtime. *)
Record PState := {
  this : DynamicUserEntityProvider;
  runtime : Runtime
}.

Definition P := M PState.

Definition logger (level : LogLevel) (message : string) : P unit :=
  fun s => (Ok tt, {| this := this s; runtime := record (EvLogger level message) (runtime s) |}).

Definition connection_applyMutation (conn : Connection)
    (mutation : EntityProviderMutation) : P unit :=
  fun s =>
    let (r, w) := applyMutation conn mutation (world (runtime s)) in
    (r, {| this := this s;
           runtime := {| world := w;
                         trace := trace (runtime s) ++ [EvApplyMutation conn mutation] |} |}).

Definition get_this : P DynamicUserEntityProvider :=
  fun s => (Ok (this s), s).

Definition set_userCache (cache : Map DeferredEntity) : P unit :=
  fun s => (Ok tt, {| this := {| connection := connection (this s); userCache := cache |};
                      runtime := runtime s |}).

Definition set_connection (conn : Connection) : P unit :=
  fun s => (Ok tt, {| this := {| connection := Some conn; userCache := userCache (this s) |};
                      runtime := runtime s |}).

(** [new DynamicUserEntityProvider(logger)] *)
Definition new_provider : DynamicUserEntityProvider :=
  {| connection := None; userCache := [] |}.

Definition getProviderName : string := "dynamic-user-provider".

Definition connect (conn : Connection) : P unit :=
  set_connection conn ;;
  logger LogDebug "Dynamic User Entity Provider connected".

(** [`${userEntity.kind}:${userEntity.metadata.namespace}/${userEntity.metadata.name}`];
    an absent namespace renders as ["undefined"]. *)
Definition entityKeyOf (userEntity : Entity) : string :=
  kind userEntity ++ ":" ++
  match namespace (metadata userEntity) with
  | Some ns => ns
  | None => "undefined"
  end ++ "/" ++ name (metadata userEntity).

Definition deferredOf (userEntity : Entity) : DeferredEntity :=
  {| entity := userEntity;
     locationKey := "dynamic-user-provider:" ++ entityKeyOf userEntity |}.

Definition addOrUpdateUser (userEntity : Entity) : P unit :=
  let entityKey := entityKeyOf userEntity in
  let deferredEntity := deferredOf userEntity in
  self <- get_this ;;
  set_userCache (map_set entityKey deferredEntity (userCache self)) ;;
  match connection self with
  | Some conn =>
      try_catch
        (self <- get_this ;;
         connection_applyMutation conn (MutationFull (map_values (userCache self))) ;;
         logger LogDebug ("Successfully added/updated user entity: " ++ entityKey))
        (fun error =>
           logger LogError ("Failed to add/update user entity: " ++ entityKey) ;;
           throw error)
  | None => logger LogWarn "No connection available to catalog"
  end.

Definition removeUser (entityKey : string) : P unit :=
  self <- get_this ;;
  match map_get entityKey (userCache self), connection self with
  | Some _, Some conn =>
      set_userCache (map_delete entityKey (userCache self)) ;;
      self <- get_this ;;
      connection_applyMutation conn (MutationFull (map_values (userCache self)))
  | _, _ => ret tt
  end.

Definition getAllUsers : P (list DeferredEntity) :=
  self <- get_this ;;
  ret (map_values (userCache self)).

(** *** modules/dynamicUsersModule.ts *)

(** The state a resolver runs in: the module variable
    [dynamicUserEntityProvider] and the runtime. *)
Record GState := {
  dynamicUserEntityProvider : option DynamicUserEntityProvider;
  gruntime : Runtime
}.

Definition G := M GState.

(** The [init] of the backend module. *)
Definition init : G unit :=
  fun g => (Ok tt, {| dynamicUserEntityProvider := Some new_provider;
                      gruntime := gruntime g |}).

(** [getDynamicUserEntityProvider().method(...)]: the getter throws while the
    module variable is unset, otherwise the method runs on that provider. *)
Definition getDynamicUserEntityProvider {A} (method : P A) : G A :=
  fun g =>
    match dynamicUserEntityProvider g with
    | None =>
        (Throw (newError
           "DynamicUserEntityProvider has not been initialized yet. Ensure the dynamicUsersModule has been registered and initialized."),
         g)
    | Some provider =>
        let (r, s) := method {| this := provider; runtime := gruntime g |} in
        (r, {| dynamicUserEntityProvider := Some (this s); gruntime := runtime s |})
    end.

(** *** modules/rhdhSignInResolvers.ts *)

Definition g_record (ev : Event) : G unit :=
  fun g => (Ok tt, {| dynamicUserEntityProvider := dynamicUserEntityProvider g;
                      gruntime := record ev (gruntime g) |}).

Definition ctx_signInWithCatalogUser (query : SignInQuery)
    (options : option SignInOptions) : G BackstageSignInResult :=
  fun g =>
    let (r, w) := signInWithCatalogUser query options (world (gruntime g)) in
    (r, {| dynamicUserEntityProvider := dynamicUserEntityProvider g;
           gruntime := {| world := w;
                          trace := trace (gruntime g) ++ [EvSignIn query options] |} |}).

(** [await new Promise(res => setTimeout(res, ms))] *)
Definition sleep (ms : Z) : G unit :=
  fun g =>
    (Ok tt, {| dynamicUserEntityProvider := dynamicUserEntityProvider g;
               gruntime := {| world := elapse ms (world (gruntime g));
                              trace := trace (gruntime g) ++ [EvSleep ms] |} |}).

Definition console_error (message : string) (err : value) : G unit :=
  g_record (EvConsoleError message err).

Definition LDAP_UUID_ANNOTATION : string := "backstage.io/ldap-uuid".

Record LdapOptions := {
  dangerouslyAllowSignInWithoutUserInCatalog : option bool;
  ldapUuidKey : option string
}.

Definition MISSING_UUID_MESSAGE : string :=
  "The user profile from LDAP is missing the UUID, likely due to a misconfiguration in the provider. Please contact your system administrator for assistance.".

Definition MISSING_ID_TOKEN_MESSAGE : string :=
  "The user ID token from LDAP is missing. Please contact your system administrator for assistance.".

Definition UUID_MISMATCH_MESSAGE : string :=
  "There was a problem verifying your identity with LDAP due to mismatching UUID. Please contact your system administrator for assistance.".

(** Reading a property of [undefined] (V8's wording). *)
Definition undefined_read (property : string) : value :=
  newTypeError ("Cannot read properties of undefined (reading '" ++ property ++ "')").

(** [options?.ldapUuidKey ?? 'ldap_uuid'] *)
Definition uuidKeyOf (options : option LdapOptions) : string :=
  match options with
  | Some {| ldapUuidKey := Some key |} => key
  | _ => "ldap_uuid"
  end.

Definition oidcLdapUuidMatchingAnnotation (options : option LdapOptions)
    (info : SignInInfo) : G BackstageSignInResult :=
  let uuidKey := uuidKeyOf options in
  match fullProfile info with
  | None => throw (undefined_read "userinfo")
  | Some full =>
      let uuid := get (userinfo full) uuidKey in
      if negb (truthy uuid) then throw (newError MISSING_UUID_MESSAGE)
      else
        match id_token (tokenset full) with
        | None => throw (newError MISSING_ID_TOKEN_MESSAGE)
        | Some idToken =>
            if String.eqb idToken "" then throw (newError MISSING_ID_TOKEN_MESSAGE)
            else
              payload <- lift (decodeJwt idToken) ;;
              let uuidFromIdToken := get payload uuidKey in
              if negb (strict_eq uuid uuidFromIdToken)
              then throw (newError UUID_MISMATCH_MESSAGE)
              else
                ctx_signInWithCatalogUser
                  (QueryAnnotations [(LDAP_UUID_ANNOTATION, uuid)])
                  (Some {| dangerousEntityRefFallback :=
                             match options with
                             | Some {| dangerouslyAllowSignInWithoutUserInCatalog := Some true |} =>
                                 Some uuid
                             | _ => None
                             end |})
        end
  end.

(** Lines 201-204: [claims?.groups ?? []], then [concat] of
    [claims?.resource_access?.octo?.roles ?? []].  [concat] spreads an array
    argument and appends any other value as one element; it exists on arrays
    and strings only, and the [map] that follows on arrays only. *)
Definition entitlementsOf (claims : value) : Res (list value) :=
  let entitlements := nullish_or (get claims "groups") (VArr []) in
  let roles :=
    nullish_or (get (get (get claims "resource_access") "octo") "roles") (VArr []) in
  match entitlements with
  | VArr es =>
      Ok (match roles with
          | VArr rs => es ++ rs
          | r => es ++ [r]
          end)
  | VStr _ => Throw (newTypeError "entitlements?.map is not a function")
  | _ => Throw (newTypeError "entitlements.concat is not a function")
  end.

(** [`group:default/${entitlement}`] *)
Definition groupRef (entitlement : value) : string :=
  "group:default/" ++ to_string entitlement.

(** [const [username] = email.split('@')] *)
Definition usernameOf (email : string) : string :=
  match split "@" email with
  | username :: _ => username
  | [] => "undefined"
  end.

Definition MANAGED_BY : list (string * string) :=
  [("backstage.io/managed-by-location", "url:dynamic-user-provider");
   ("backstage.io/managed-by-origin-location", "url:dynamic-user-provider")].

(** Lines 200-227: the [userEntity] literal. *)
Definition userEntityOf (email : string) (entitlements : list value) : Entity :=
  let username := usernameOf email in
  let groups := map groupRef entitlements in
  {| apiVersion := "backstage.io/v1alpha1";
     kind := "User";
     metadata := {| name := username;
                    namespace := Some DEFAULT_NAMESPACE;
                    annotations := MANAGED_BY |};
     spec := VObj [("profile", VObj [("displayName", VStr username);
                                      ("email", VStr email)]);
                   ("memberOf", VArr (map VStr groups))] |}.

(** Lines 189-193: [tokens] and [claims]. *)
Definition decodeClaims (info : SignInInfo) : Res value :=
  let tokens :=
    match fullProfile info with
    | Some full =>
        match access_token (tokenset full) with
        | Some t => Some (split "." t)
        | None => None
        end
    | None => None
    end in
  match tokens with
  | None => Throw (undefined_read "1")
  | Some segments => parsePayload (nth_error segments 1)
  end.

(** Lines 189-227: from the sign-in info to the user entity. *)
Definition buildUserEntity (info : SignInInfo) : Res Entity :=
  match decodeClaims info with
  | Throw err => Throw err
  | Ok claims =>
      match email (profile info) with
      | None | Some "" =>
          Throw (newError "Login failed, user profile does not contain an email")
      | Some address =>
          match entitlementsOf claims with
          | Throw err => Throw err
          | Ok entitlements => Ok (userEntityOf address entitlements)
          end
      end
  end.

Definition MAX_RETRIES : nat := 10.
Definition RETRY_DELAY_MS : Z := 300.

(** How one turn of the [while] ends: [break] with a result, or back to the
    loop test with the attempt counter as it then stands. *)
Inductive LoopExit :=
| LoopBreak (result : BackstageSignInResult)
| LoopAgain (attempt : nat).

(** Lines 247-252: the test the [catch] clause makes before it reads
    [name] and [message]. *)
Definition hasNameAndMessage (err : value) : bool :=
  is_object err && has_property "name" err && has_property "message" err.

(** Lines 247-254: the failures the loop takes for "not found". *)
Definition isNotFound (err : value) : bool :=
  hasNameAndMessage err && strict_eq (get err "name") (VStr "NotFoundError").

(** Lines 241-264: the body of the [while]. *)
Definition retryBody (userEntityRef : string) (attempt : nat) : G LoopExit :=
  try_catch
    (result <- ctx_signInWithCatalogUser (QueryEntityRef userEntityRef) None ;;
     ret (LoopBreak result))
    (fun err =>
       if hasNameAndMessage err
       then
         if strict_eq (get err "name") (VStr "NotFoundError")
         then
           sleep RETRY_DELAY_MS ;;
           ret (LoopAgain (S attempt))
         else
           throw (newError ("Failed to sign in with catalog user: "
                            ++ to_string (get err "message")))
       else ret (LoopAgain attempt)).

(** A run of the [while] cut after some turns: left (with [result], [None]
    for [undefined], or with a thrown value), or still going with this
    attempt counter. *)
Inductive LoopRun :=
| LoopLeft (outcome : Res (option BackstageSignInResult)) (g : GState)
| LoopGoing (attempt : nat) (g : GState).

(** Lines 240-265: the [while], run for at most [fuel] turns. *)
Fixpoint retryLoop (fuel : nat) (userEntityRef : string) (attempt : nat)
    (g : GState) : LoopRun :=
  if (attempt <? MAX_RETRIES)%nat then
    match fuel with
    | O => LoopGoing attempt g
    | S fuel' =>
        match retryBody userEntityRef attempt g with
        | (Ok (LoopBreak result), g') => LoopLeft (Ok (Some result)) g'
        | (Ok (LoopAgain attempt'), g') => retryLoop fuel' userEntityRef attempt' g'
        | (Throw err, g') => LoopLeft (Throw err) g'
        end
    end
  else LoopLeft (Ok None) g.

Definition NOT_CONVERGED_MESSAGE (userEntityRef : string) : string :=
  "User entity " ++ userEntityRef ++ " not found in catalog after "
  ++ nat_to_string MAX_RETRIES ++ " attempts".

(** Lines 235-273: the loop from [attempt = 0], then [if (!result) throw];
    [None] when [fuel] turns do not end the loop. *)
Definition convergenceRetry (fuel : nat) (userEntityRef : string) (g : GState)
    : option (Res BackstageSignInResult * GState) :=
  match retryLoop fuel userEntityRef 0 g with
  | LoopGoing _ _ => None
  | LoopLeft (Ok (Some result)) g' => Some (Ok result, g')
  | LoopLeft (Ok None) g' =>
      Some (Throw (newError (NOT_CONVERGED_MESSAGE userEntityRef)), g')
  | LoopLeft (Throw err) g' => Some (Throw err, g')
  end.

(** Lines 229-233: the upsert, its failure caught and logged. *)
Definition provision (userEntity : Entity) : G unit :=
  try_catch
    (getDynamicUserEntityProvider (addOrUpdateUser userEntity))
    (fun error => console_error "Failed to add user to catalog via provider:" error).

Definition oauth2TokenClaimResolver (fuel : nat) (info : SignInInfo) (g : GState)
    : option (Res BackstageSignInResult * GState) :=
  match buildUserEntity info with
  | Throw err => Some (Throw err, g)
  | Ok userEntity =>
      let userEntityRef := stringifyEntityRef userEntity in
      match provision userEntity g with
      | (Ok _, g') => convergenceRetry fuel userEntityRef g'
      | (Throw err, g') => Some (Throw err, g')
      end
  end.

(** *** Notions the properties are stated with *)

(** The catalog mutations, lookups and waits of a trace, in order. *)
Fixpoint publishes (events : list Event) : list (Connection * EntityProviderMutation) :=
  match events with
  | [] => []
  | EvApplyMutation conn mutation :: rest => (conn, mutation) :: publishes rest
  | _ :: rest => publishes rest
  end.

Fixpoint lookups (events : list Event) : list SignInQuery :=
  match events with
  | [] => []
  | EvSignIn query _ :: rest => query :: lookups rest
  | _ :: rest => lookups rest
  end.

Fixpoint sleeps (events : list Event) : list Z :=
  match events with
  | [] => []
  | EvSleep ms :: rest => ms :: sleeps rest
  | _ :: rest => sleeps rest
  end.

(** A caller that upserts the entities one after the other, whatever each
    call answers. *)
Definition upsertAll (userEntities : list Entity) (s : PState) : PState :=
  fold_left (fun s userEntity => snd (addOrUpdateUser userEntity s)) userEntities s.

(** The last entity of the list that has this stable key. *)
Definition lastUpsert (entityKey : string) (userEntities : list Entity) : option Entity :=
  find (fun userEntity => String.eqb (entityKeyOf userEntity) entityKey) (rev userEntities).

(** [p] is what stands in [s] before its first [c] (all of [s] when it has
    none). *)
Definition before_first (c : ascii) (s p : string) : Prop :=
  (exists rest, s = (p ++ String c rest)%string /\ occurs c p = false)
  \/ (s = p /\ occurs c s = false).

(** An optional list of strings, as a claim holds it. *)
Definition optional_strings (v : value) (l : list string) : Prop :=
  v = VArr (map VStr l) \/ (is_nullish v = true /\ l = []).


(** *** The resolvers that look the user up by name

    Each of them checks its input and then ends with
    [return ctx.signInWithCatalogUser({ entityRef: { name } }, { dangerousEntityRefFallback })];
    it is modelled by how it ends. *)

Inductive NameResolution :=
| Rejected (err : value)
| SignInByName (entityName : value) (options : SignInOptions).

(** [options?.dangerouslyAllowSignInWithoutUserInCatalog ? { entityRef: x } : undefined] *)
Definition fallbackFor (options : option ByName.Options) (x : value) : option value :=
  match options with
  | Some {| ByName.dangerouslyAllowSignInWithoutUserInCatalog := Some true |} => Some x
  | _ => None
  end.

(** Reading a property of [null] (V8's wording). *)
Definition null_read (property : string) : value :=
  newTypeError ("Cannot read properties of null (reading '" ++ property ++ "')").

(** Lines 44-74. *)
Definition preferredUsernameMatchingUserEntityName
    (options : option ByName.Options) (info : SignInInfo) : NameResolution :=
  match fullProfile info with
  | None => Rejected (undefined_read "userinfo")
  | Some full =>
      match userinfo full with
      | VUndefined => Rejected (undefined_read "preferred_username")
      | VNull => Rejected (null_read "preferred_username")
      | claims =>
          let userId := get claims "preferred_username" in
          if negb (truthy userId)
          then Rejected (newError "OIDC user profile does not contain a username")
          else SignInByName userId
                 {| dangerousEntityRefFallback := fallbackFor options userId |}
      end
  end.

(** Truthiness of a [string | undefined]. *)
Definition nonEmpty (s : option string) : bool :=
  match s with
  | Some s => negb (String.eqb s "")
  | None => false
  end.

(** Lines 92-124.  [OAUTH_USER_HEADER] is [process.env.OAUTH_USER_HEADER],
    [getHeader] is [info.result.getHeader] ([string | undefined] by its
    type). *)
Definition oauth2ProxyUserHeaderMatchingUserEntityName
    (options : option ByName.Options) (OAUTH_USER_HEADER : option string)
    (getHeader : string -> option string) : NameResolution :=
  let userName :=
    match OAUTH_USER_HEADER with
    | Some header =>
        if nonEmpty (Some header) then getHeader header
        else if nonEmpty (getHeader "x-forwarded-preferred-username")
             then getHeader "x-forwarded-preferred-username"
             else getHeader "x-forwarded-user"
    | None =>
        if nonEmpty (getHeader "x-forwarded-preferred-username")
        then getHeader "x-forwarded-preferred-username"
        else getHeader "x-forwarded-user"
    end in
  match userName with
  | Some n =>
      if nonEmpty (Some n)
      then SignInByName (VStr n)
             {| dangerousEntityRefFallback := fallbackFor options (VStr n) |}
      else Rejected (newError "Request did not contain a user")
  | None => Rejected (newError "Request did not contain a user")
  end.

(** *** Further notions the properties are stated with *)

(** A call of a method of the provider, and the state a sequence of calls
    leaves (whatever each call answers). *)
Inductive ProviderCall :=
| CallConnect (conn : Connection)
| CallAddOrUpdateUser (userEntity : Entity)
| CallRemoveUser (entityKey : string)
| CallGetAllUsers.

Definition afterCall (s : PState) (call : ProviderCall) : PState :=
  match call with
  | CallConnect conn => snd (connect conn s)
  | CallAddOrUpdateUser userEntity => snd (addOrUpdateUser userEntity s)
  | CallRemoveUser entityKey => snd (removeUser entityKey s)
  | CallGetAllUsers => snd (getAllUsers s)
  end.

Definition afterCalls (calls : list ProviderCall) (s : PState) : PState :=
  fold_left afterCall calls s.

(** The shape every reachable cache has: one slot per key, each slot under
    the stable key of its entity and carrying the location key of this
    provider. *)
Definition cacheWellKeyed (m : Map DeferredEntity) : Prop :=
  NoDup (map_keys m) /\
  forall k d, In (k, d) m ->
              k = entityKeyOf (entity d) /\
              locationKey d = (getProviderName ++ ":" ++ k)%string.

(** The lookup of [ref] is "not found" [misses] times, each followed by the
    wait of the loop, and then answers [outcome]: a result, or a failure
    with a name other than ['NotFoundError'] and a message. *)
Inductive SettlesAfter (ref : string)
    : nat -> World -> Res BackstageSignInResult -> World -> Prop :=
| SettlesFound (w w' : World) (result : BackstageSignInResult) :
    signInWithCatalogUser (QueryEntityRef ref) None w = (Ok result, w') ->
    SettlesAfter ref 0 w (Ok result) w'
| SettlesFailed (w w' : World) (err : value) :
    signInWithCatalogUser (QueryEntityRef ref) None w = (Throw err, w') ->
    hasNameAndMessage err = true ->
    strict_eq (get err "name") (VStr "NotFoundError") = false ->
    SettlesAfter ref 0 w (Throw err) w'
| SettlesLater (misses : nat) (w w1 w' : World) (err : value)
    (outcome : Res BackstageSignInResult) :
    signInWithCatalogUser (QueryEntityRef ref) None w = (Throw err, w1) ->
    isNotFound err = true ->
    SettlesAfter ref misses (elapse RETRY_DELAY_MS w1) outcome w' ->
    SettlesAfter ref (S misses) w outcome w'.

(** What the retry hands to its caller for the outcome of the lookup that
    settles it (lines 245 and 260). *)
Definition handedOver (outcome : Res BackstageSignInResult) : Res BackstageSignInResult :=
  match outcome with
  | Ok result => Ok result
  | Throw err =>
      Throw (newError ("Failed to sign in with catalog user: "
                       ++ to_string (get err "message")))
  end.

(* ===================================================================== *)
(** ** Properties *)
(* ===================================================================== *)

Set Default Proof Using "Type".

(** *** Strings and claims *)

Lemma split_first (c : ascii) (s : string) :
  exists p rest, split c s = p :: rest /\ before_first c s p.
Proof.
  induction s as [|a s IH]; simpl.
  - exists "", []. split; [reflexivity|]. right. split; reflexivity.
  - destruct (Ascii.eqb_spec a c) as [->|Hne].
    + exists "", (split c s). split; [reflexivity|].
      left. exists s. split; reflexivity.
    + destruct IH as (p & rest & Hs & Hp). rewrite Hs.
      exists (String a p), rest. split; [reflexivity|].
      assert (Hac : Ascii.eqb a c = false) by (apply Ascii.eqb_neq; exact Hne).
      destruct Hp as [(r & -> & Hocc)|[-> Hocc]].
      * left. exists r. split; [reflexivity|]. simpl. rewrite Hac. exact Hocc.
      * right. split; [reflexivity|]. simpl. rewrite Hac. exact Hocc.
Qed.

Lemma usernameOf_before_at (address : string) :
  before_first "@" address (usernameOf address).
Proof.
  unfold usernameOf.
  destruct (split_first "@" address) as (p & rest & -> & Hp). exact Hp.
Qed.

Lemma before_first_unique (c : ascii) (s p q : string) :
  before_first c s p -> before_first c s q -> p = q.
Proof.
  revert p q. induction s as [|a s IH]; intros p q Hp Hq.
  - destruct Hp as [(r & Hr & _)|[<- _]]; [destruct p; discriminate|].
    destruct Hq as [(r & Hr & _)|[<- _]]; [destruct q; discriminate|reflexivity].
  - assert (Hcase : forall x, before_first c (String a s) x ->
              (a = c /\ x = "") \/ (a <> c /\ exists x', x = String a x' /\ before_first c s x')).
    { intros x [(r & Hr & Hocc)|[<- Hocc]].
      - destruct x as [|b x]; simpl in Hr.
        + left. split; [congruence|reflexivity].
        + injection Hr as <- ->. simpl in Hocc.
          apply Bool.orb_false_iff in Hocc as [Hac Hocc].
          right. split; [apply Ascii.eqb_neq; exact Hac|].
          exists x. split; [reflexivity|]. left. exists r. split; [reflexivity|exact Hocc].
      - simpl in Hocc. apply Bool.orb_false_iff in Hocc as [Hac Hocc].
        right. split; [apply Ascii.eqb_neq; exact Hac|].
        exists s. split; [reflexivity|]. right. split; [reflexivity|exact Hocc]. }
    destruct (Hcase p Hp) as [[Hac ->]|[Hac (p' & -> & Hp')]];
      destruct (Hcase q Hq) as [[Hac' ->]|[Hac' (q' & -> & Hq')]];
      try reflexivity; try contradiction.
    f_equal. apply IH; assumption.
Qed.

Lemma entitlementsOf_strings (claims : value) (gs rs : list string) :
  optional_strings (get claims "groups") gs ->
  optional_strings (get (get (get claims "resource_access") "octo") "roles") rs ->
  entitlementsOf claims = Ok (map VStr (gs ++ rs)).
Proof.
  intros Hg Hr. unfold entitlementsOf.
  assert (Eg : nullish_or (get claims "groups") (VArr []) = VArr (map VStr gs)).
  { destruct Hg as [->|[Hn ->]]; unfold nullish_or; [reflexivity|now rewrite Hn]. }
  assert (Er : nullish_or (get (get (get claims "resource_access") "octo") "roles") (VArr [])
               = VArr (map VStr rs)).
  { destruct Hr as [->|[Hn ->]]; unfold nullish_or; [reflexivity|now rewrite Hn]. }
  rewrite Eg, Er. now rewrite map_app.
Qed.

Lemma groupRef_strings (l : list string) :
  map groupRef (map VStr l) = map (String.append "group:default/") l.
Proof.
  rewrite map_map. apply map_ext. intros e. reflexivity.
Qed.

Lemma buildUserEntity_inv (info : SignInInfo) (e : Entity) :
  buildUserEntity info = Ok e ->
  exists claims address entitlements,
    decodeClaims info = Ok claims /\
    email (profile info) = Some address /\ address <> "" /\
    entitlementsOf claims = Ok entitlements /\
    e = userEntityOf address entitlements.
Proof.
  unfold buildUserEntity. intros H.
  destruct (decodeClaims info) as [claims|]; [|discriminate].
  destruct (email (profile info)) as [address|]; [|discriminate].
  destruct address as [|a address]; [discriminate|].
  destruct (entitlementsOf claims) as [ents|] eqn:He; [|discriminate].
  injection H as <-. exists claims, (String a address), ents.
  split; [reflexivity|]. split; [reflexivity|]. split; [discriminate|].
  split; [exact He|reflexivity].
Qed.

(** C3, for the path the code reads.  The role list is read at
    [resource_access.octo.roles]: the payload
    [{"groups":["a"],"resource_access":{"octo":{"roles":["b"]}}}] yields the
    group references ["group:default/a"; "group:default/b"]; and for every
    payload whose [groups] and [resource_access.octo.roles] are lists of
    strings (each optional, absent meaning empty) the entitlements are the
    groups followed by the roles, duplicates kept, each entitlement [e]
    becoming ["group:default/" ++ e] in [spec.memberOf]. *)
Theorem entitlements_to_group_refs :
  (exists ents, entitlementsOf Stub.payloadOcto = Ok ents /\
                map groupRef ents = ["group:default/a"; "group:default/b"]) /\
  (forall (claims : value) (gs rs : list string),
      optional_strings (get claims "groups") gs ->
      optional_strings (get (get (get claims "resource_access") "octo") "roles") rs ->
      entitlementsOf claims = Ok (map VStr (gs ++ rs)) /\
      forall address,
        get (spec (userEntityOf address (map VStr (gs ++ rs)))) "memberOf"
        = VArr (map VStr (map (String.append "group:default/") (gs ++ rs)))).
Proof.
  split.
  - exists [VStr "a"; VStr "b"]. split; reflexivity.
  - intros claims gs rs Hg Hr. split.
    + apply entitlementsOf_strings; assumption.
    + intros address. unfold userEntityOf. simpl.
      now rewrite groupRef_strings.
Qed.

(** C8.  When the claims decode and the profile has a non-empty email, the
    identity record is built, its name is what stands in the email before
    the first ['@'], its namespace is the default namespace, and its
    [spec.profile] is [{displayName = name, email = email}]. *)
Theorem userEntity_name_and_profile
    (info : SignInInfo) (claims : value) (entitlements : list value) (address : string) :
  decodeClaims info = Ok claims ->
  entitlementsOf claims = Ok entitlements ->
  email (profile info) = Some address ->
  address <> "" ->
  exists e,
    buildUserEntity info = Ok e /\
    before_first "@" address (name (metadata e)) /\
    namespace (metadata e) = Some DEFAULT_NAMESPACE /\
    get (spec e) "profile"
    = VObj [("displayName", VStr (name (metadata e))); ("email", VStr address)].
Proof.
  intros Hc He Hm Hne.
  exists (userEntityOf address entitlements). split.
  - unfold buildUserEntity. rewrite Hc, Hm, He.
    destruct address; [contradiction|reflexivity].
  - split; [apply usernameOf_before_at|]. split; reflexivity.
Qed.

(** *** The [Map] operations *)

Section MapFacts.
Variable V : Type.
Implicit Types (m : Map V) (k : string) (v : V).

Lemma map_keys_set k v m k' :
  In k' (map_keys (map_set k v m)) <-> k' = k \/ In k' (map_keys m).
Proof.
  induction m as [|[k0 v0] m IH]; simpl.
  - split; [intros [<-|[]]; left; reflexivity|intros [->|[]]; left; reflexivity].
  - destruct (String.eqb_spec k k0) as [->|Hne]; simpl.
    + split; [intros [<-|H]; [left; reflexivity|right; right; exact H]|].
      intros [->|[<-|H]]; [left; reflexivity|left; reflexivity|right; exact H].
    + unfold map_keys in IH. rewrite IH. split.
      * intros [H|[H|H]]; [right; left; exact H|left; exact H|right; right; exact H].
      * intros [H|[H|H]]; [right; left; exact H|left; exact H|right; right; exact H].
Qed.

Lemma map_set_NoDup k v m :
  NoDup (map_keys m) -> NoDup (map_keys (map_set k v m)).
Proof.
  induction m as [|[k0 v0] m IH]; simpl; intros Hnd.
  - constructor; [intros []|constructor].
  - inversion Hnd as [|? ? Hnotin Hnd']; subst.
    destruct (String.eqb_spec k k0) as [->|Hne]; simpl.
    + constructor; assumption.
    + constructor; [|apply IH; exact Hnd'].
      intros Hin. apply map_keys_set in Hin as [Heq|Hin]; [congruence|].
      apply Hnotin. exact Hin.
Qed.

Lemma map_set_In k v m k' v' :
  NoDup (map_keys m) ->
  In (k', v') (map_set k v m) <-> (k' = k /\ v' = v) \/ (k' <> k /\ In (k', v') m).
Proof.
  induction m as [|[k0 v0] m IH]; simpl; intros Hnd.
  - split; [intros [H|[]]; left; split; congruence|].
    intros [[-> ->]|[_ []]]. left. reflexivity.
  - inversion Hnd as [|? ? Hnotin Hnd']; subst.
    destruct (String.eqb_spec k k0) as [->|Hne]; simpl.
    + split.
      * intros [H|H]; [left; split; congruence|].
        right. split; [|right; exact H].
        intros ->. apply Hnotin. apply (in_map fst) in H. exact H.
      * intros [[-> ->]|[Hk [H|H]]]; [left; reflexivity| |right; exact H].
        congruence.
    + rewrite (IH Hnd'). split.
      * intros [H|[H|H]].
        -- right. split; [congruence|left; exact H].
        -- left. exact H.
        -- right. split; [apply H|right; apply H].
      * intros [H|[Hk [H|H]]].
        -- right. left. exact H.
        -- left. exact H.
        -- right. right. split; assumption.
Qed.

Lemma map_get_set k v m : map_get k (map_set k v m) = Some v.
Proof.
  induction m as [|[k0 v0] m IH]; simpl.
  - now rewrite String.eqb_refl.
  - destruct (String.eqb_spec k k0) as [->|Hne]; simpl.
    + now rewrite String.eqb_refl.
    + destruct (String.eqb_spec k k0); [contradiction|exact IH].
Qed.

Lemma map_get_None k m : map_get k m = None <-> ~ In k (map_keys m).
Proof.
  induction m as [|[k0 v0] m IH]; simpl.
  - split; [intros _ []|reflexivity].
  - destruct (String.eqb_spec k k0) as [->|Hne].
    + split; [discriminate|]. intros H. exfalso. apply H. left. reflexivity.
    + rewrite IH. unfold map_keys. split.
      * intros H [Heq|Hin]; [apply Hne; symmetry; exact Heq|apply H; exact Hin].
      * intros H Hin. apply H. right. exact Hin.
Qed.

Lemma map_get_In k v m : map_get k m = Some v -> In (k, v) m.
Proof.
  induction m as [|[k0 v0] m IH]; simpl; [discriminate|].
  destruct (String.eqb_spec k k0) as [->|Hne].
  - intros [= ->]. left. reflexivity.
  - intros H. right. apply IH. exact H.
Qed.

Lemma map_get_delete_same k m :
  NoDup (map_keys m) -> map_get k (map_delete k m) = None.
Proof.
  induction m as [|[k0 v0] m IH]; simpl; intros Hnd; [reflexivity|].
  inversion Hnd as [|? ? Hnotin Hnd']; subst.
  destruct (String.eqb_spec k k0) as [->|Hne]; simpl.
  - apply map_get_None. exact Hnotin.
  - destruct (String.eqb_spec k k0); [contradiction|]. apply IH. exact Hnd'.
Qed.

Lemma map_get_delete_other k k' m :
  k' <> k -> map_get k' (map_delete k m) = map_get k' m.
Proof.
  intros Hne. induction m as [|[k0 v0] m IH]; simpl; [reflexivity|].
  destruct (String.eqb_spec k k0) as [->|Hk]; simpl.
  - destruct (String.eqb_spec k' k0); [contradiction|reflexivity].
  - destruct (String.eqb_spec k' k0); [reflexivity|exact IH].
Qed.

Lemma map_delete_length k v m :
  map_get k m = Some v -> S (length (map_delete k m)) = length m.
Proof.
  induction m as [|[k0 v0] m IH]; simpl; [discriminate|].
  destruct (String.eqb_spec k k0) as [->|Hne]; simpl; [reflexivity|].
  intros H. now rewrite IH.
Qed.

End MapFacts.

(** *** The provider *)

Local Arguments String.append : simpl never.

Ltac run_provider :=
  unfold addOrUpdateUser, removeUser, getAllUsers, connection_applyMutation, logger,
    get_this, set_userCache, bind, try_catch, ret, throw, record; simpl.

(** [addOrUpdateUser] spelled out on a provider without connection. *)
Lemma addOrUpdateUser_unconnected (userEntity : Entity) (s : PState) :
  connection (this s) = None ->
  addOrUpdateUser userEntity s
  = (Ok tt,
     {| this := {| connection := None;
                   userCache := map_set (entityKeyOf userEntity) (deferredOf userEntity)
                                  (userCache (this s)) |};
        runtime := {| world := world (runtime s);
                      trace := trace (runtime s)
                               ++ [EvLogger LogWarn "No connection available to catalog"] |} |}).
Proof.
  intros Hc. run_provider. rewrite Hc. reflexivity.
Qed.

(** [addOrUpdateUser] spelled out on a connected provider, by the answer of
    [applyMutation]. *)
Lemma addOrUpdateUser_connected (userEntity : Entity) (s : PState) (conn : Connection) :
  connection (this s) = Some conn ->
  let cache := map_set (entityKeyOf userEntity) (deferredOf userEntity) (userCache (this s)) in
  let batch := MutationFull (map_values cache) in
  let (r, w) := applyMutation conn batch (world (runtime s)) in
  addOrUpdateUser userEntity s
  = (r,
     {| this := {| connection := Some conn; userCache := cache |};
        runtime :=
          {| world := w;
             trace := (trace (runtime s) ++ [EvApplyMutation conn batch])
                      ++ [match r with
                          | Ok _ => EvLogger LogDebug
                                      ("Successfully added/updated user entity: "
                                       ++ entityKeyOf userEntity)
                          | Throw _ => EvLogger LogError
                                         ("Failed to add/update user entity: "
                                          ++ entityKeyOf userEntity)
                          end] |} |}).
Proof.
  intros Hc. simpl. run_provider. rewrite Hc. simpl.
  destruct (applyMutation conn _ (world (runtime s))) as [[[]|err] w]; reflexivity.
Qed.

Lemma addOrUpdateUser_cache (userEntity : Entity) (s : PState) :
  userCache (this (snd (addOrUpdateUser userEntity s)))
  = map_set (entityKeyOf userEntity) (deferredOf userEntity) (userCache (this s)).
Proof.
  destruct (connection (this s)) as [conn|] eqn:Hc.
  - pose proof (addOrUpdateUser_connected userEntity s Hc) as H. simpl in H.
    destruct (applyMutation conn _ (world (runtime s))) as [r w].
    rewrite H. reflexivity.
  - rewrite (addOrUpdateUser_unconnected userEntity s Hc). reflexivity.
Qed.

Lemma upsertAll_app (es es' : list Entity) (s : PState) :
  upsertAll (es ++ es') s = upsertAll es' (upsertAll es s).
Proof. unfold upsertAll. apply fold_left_app. Qed.

Lemma lastUpsert_snoc (k : string) (es : list Entity) (e : Entity) :
  lastUpsert k (es ++ [e])
  = if String.eqb (entityKeyOf e) k then Some e else lastUpsert k es.
Proof.
  unfold lastUpsert. rewrite rev_app_distr. reflexivity.
Qed.

Lemma lastUpsert_key (k : string) (es : list Entity) (e : Entity) :
  lastUpsert k es = Some e -> entityKeyOf e = k /\ In e es.
Proof.
  unfold lastUpsert. intros H. apply find_some in H as [Hin Hk].
  split; [apply String.eqb_eq; exact Hk|apply in_rev; exact Hin].
Qed.

Lemma lastUpsert_defined (k : string) (es : list Entity) :
  (exists e, lastUpsert k es = Some e) <-> In k (map entityKeyOf es).
Proof.
  split.
  - intros [e H]. apply lastUpsert_key in H as [<- Hin]. apply in_map. exact Hin.
  - intros Hin. apply in_map_iff in Hin as (e & Hk & Hin).
    unfold lastUpsert.
    destruct (find (fun u => String.eqb (entityKeyOf u) k) (rev es)) as [e'|] eqn:Hf.
    + exists e'. reflexivity.
    + exfalso.
      assert (Hr : In e (rev es)) by (apply in_rev; rewrite rev_involutive; exact Hin).
      pose proof (find_none _ _ Hf e Hr) as Hno. simpl in Hno.
      rewrite Hk, String.eqb_refl in Hno. discriminate.
Qed.

(** What the cache holds after a run of upserts on an empty cache. *)
Lemma upsertAll_cache (es : list Entity) (c : option Connection) (rt : Runtime) :
  let m := userCache (this (upsertAll es
             {| this := {| connection := c; userCache := [] |}; runtime := rt |})) in
  NoDup (map_keys m) /\
  forall k d, In (k, d) m <-> exists e, lastUpsert k es = Some e /\ d = deferredOf e.
Proof.
  induction es as [|e0 es IH] using rev_ind; simpl.
  - split; [constructor|]. intros k d. split; [intros []|].
    intros (e & H & _). discriminate.
  - rewrite upsertAll_app. simpl. rewrite addOrUpdateUser_cache.
    destruct IH as [Hnd Hin]. split; [apply map_set_NoDup; exact Hnd|].
    intros k d. rewrite map_set_In by exact Hnd. rewrite lastUpsert_snoc.
    destruct (String.eqb_spec (entityKeyOf e0) k) as [Hk|Hk].
    + split.
      * intros [[_ ->]|[Hne _]]; [|congruence]. exists e0. split; reflexivity.
      * intros (e & [= <-] & ->). left. split; [symmetry; exact Hk|reflexivity].
    + rewrite <- Hin. split.
      * intros [[-> _]|[_ H]]; [congruence|exact H].
      * intros H. right. split; [congruence|exact H].
Qed.

(** C4.  After any sequence of [addOrUpdateUser] calls on a new provider
    (connected or not, whatever the catalog answers), [getAllUsers] returns
    a snapshot with one deferred entity per distinct stable key upserted:
    the keys of the snapshot are pairwise distinct and are the keys
    upserted, every entry is the deferred form of the last entity upserted
    under its key, the length is the number of distinct keys, and so equals
    the number of upserts when their keys are pairwise distinct. *)
Theorem snapshot_one_slot_per_key
    (userEntities : list Entity) (c : option Connection) (rt : Runtime) :
  let s := upsertAll userEntities
             {| this := {| connection := c; userCache := [] |}; runtime := rt |} in
  exists snapshot,
    getAllUsers s = (Ok snapshot, s) /\
    NoDup (map (fun d => entityKeyOf (entity d)) snapshot) /\
    (forall k, In k (map (fun d => entityKeyOf (entity d)) snapshot)
               <-> In k (map entityKeyOf userEntities)) /\
    (forall d, In d snapshot
               <-> exists e, lastUpsert (entityKeyOf e) userEntities = Some e
                             /\ d = deferredOf e) /\
    length snapshot = length (nodup string_dec (map entityKeyOf userEntities)) /\
    (NoDup (map entityKeyOf userEntities) -> length snapshot = length userEntities).
Proof.
  intros s.
  destruct (upsertAll_cache userEntities c rt) as [Hnd Hin]. fold s in Hnd, Hin.
  set (m := userCache (this s)) in *.
  exists (map_values m). split; [reflexivity|].
  assert (Hkeys : map (fun d => entityKeyOf (entity d)) (map_values m) = map_keys m).
  { unfold map_values, map_keys. rewrite map_map. apply map_ext_in.
    intros [k d] Hkd. simpl. apply Hin in Hkd as (e & He & ->).
    apply lastUpsert_key in He as [He _]. exact He. }
  assert (Hset : forall k, In k (map_keys m) <-> In k (map entityKeyOf userEntities)).
  { intros k. rewrite <- lastUpsert_defined. unfold map_keys. rewrite in_map_iff. split.
    - intros ([k' d] & Hk & Hkd). simpl in Hk. subst k'.
      apply Hin in Hkd as (e & He & _). exists e. exact He.
    - intros (e & He). exists (k, deferredOf e). split; [reflexivity|].
      apply Hin. exists e. split; [exact He|reflexivity]. }
  assert (Hlen : length (map_values m)
                 = length (nodup string_dec (map entityKeyOf userEntities))).
  { unfold map_values. rewrite length_map, <- (length_map fst).
    apply Permutation_length, NoDup_Permutation.
    - exact Hnd.
    - apply NoDup_nodup.
    - intros k. rewrite nodup_In. apply Hset. }
  rewrite Hkeys. split; [exact Hnd|]. split; [exact Hset|]. split; [|split].
  - intros d. unfold map_values. rewrite in_map_iff. split.
    + intros ([k d'] & Hd & Hkd). simpl in Hd. subst d'.
      apply Hin in Hkd as (e & He & ->). exists e. split; [|reflexivity].
      destruct (lastUpsert_key _ _ He) as [-> _]. exact He.
    + intros (e & He & ->). exists (entityKeyOf e, deferredOf e).
      split; [reflexivity|]. apply Hin. exists e. split; [exact He|reflexivity].
  - exact Hlen.
  - intros Hd. rewrite Hlen, (nodup_fixed_point string_dec Hd). apply length_map.
Qed.

(** C5.  Each call of [addOrUpdateUser] or [removeUser] calls
    [applyMutation] at most once, and a call it makes is on the registered
    connection, of type [full], with all the values the cache holds once
    the method has edited it.  [addOrUpdateUser] publishes exactly when a
    connection is registered; [removeUser] exactly when moreover the key is
    in the cache. *)
Theorem publish_sends_whole_cache :
  (forall (userEntity : Entity) (s : PState),
      let s' := snd (addOrUpdateUser userEntity s) in
      userCache (this s')
      = map_set (entityKeyOf userEntity) (deferredOf userEntity) (userCache (this s)) /\
      exists events,
        trace (runtime s') = trace (runtime s) ++ events /\
        publishes events
        = match connection (this s) with
          | Some conn => [(conn, MutationFull (map_values (userCache (this s'))))]
          | None => []
          end) /\
  (forall (entityKey : string) (s : PState),
      let s' := snd (removeUser entityKey s) in
      exists events,
        trace (runtime s') = trace (runtime s) ++ events /\
        publishes events
        = match map_get entityKey (userCache (this s)), connection (this s) with
          | Some _, Some conn => [(conn, MutationFull (map_values (userCache (this s'))))]
          | _, _ => []
          end).
Proof.
  split.
  - intros userEntity s s'. split; [apply addOrUpdateUser_cache|]. subst s'.
    destruct (connection (this s)) as [conn|] eqn:Hc.
    + pose proof (addOrUpdateUser_connected userEntity s Hc) as H. simpl in H.
      destruct (applyMutation conn _ (world (runtime s))) as [r w].
      rewrite H. simpl. rewrite <- app_assoc. eexists. split; [reflexivity|].
      destruct r; reflexivity.
    + rewrite (addOrUpdateUser_unconnected userEntity s Hc). simpl.
      eexists. split; reflexivity.
  - intros entityKey s s'. subst s'. run_provider.
    destruct (map_get entityKey (userCache (this s))) as [d|];
      [destruct (connection (this s)) as [conn|]|]; simpl.
    + destruct (applyMutation conn _ (world (runtime s))) as [r w]. simpl.
      eexists. split; reflexivity.
    + exists []. split; [symmetry; apply app_nil_r|reflexivity].
    + exists []. split; [symmetry; apply app_nil_r|reflexivity].
Qed.

(** C6.  When [applyMutation] fails during [addOrUpdateUser], the method
    throws that same failure after logging it, and the cache keeps the
    upserted entity under its key; in [oauth2TokenClaimResolver] the
    failure is caught and written to the console, and the resolver goes on
    to the retry loop: its outcome is that of [convergenceRetry] run from
    the state the failed upsert left. *)
Theorem publish_failure_kept_and_survived
    (userEntity : Entity) (provider : DynamicUserEntityProvider) (rt : Runtime)
    (conn : Connection) (error : value) (w : World) :
  let entityKey := entityKeyOf userEntity in
  let cache := map_set entityKey (deferredOf userEntity) (userCache provider) in
  let batch := MutationFull (map_values cache) in
  let attempted :=
    {| world := w;
       trace := trace rt
                ++ [EvApplyMutation conn batch;
                    EvLogger LogError ("Failed to add/update user entity: " ++ entityKey)] |} in
  connection provider = Some conn ->
  applyMutation conn batch (world rt) = (Throw error, w) ->
  addOrUpdateUser userEntity {| this := provider; runtime := rt |}
  = (Throw error,
     {| this := {| connection := Some conn; userCache := cache |};
        runtime := attempted |}) /\
  map_get entityKey cache = Some (deferredOf userEntity) /\
  forall (info : SignInInfo) (fuel : nat),
    buildUserEntity info = Ok userEntity ->
    oauth2TokenClaimResolver fuel info
      {| dynamicUserEntityProvider := Some provider; gruntime := rt |}
    = convergenceRetry fuel (stringifyEntityRef userEntity)
        {| dynamicUserEntityProvider :=
             Some {| connection := Some conn; userCache := cache |};
           gruntime :=
             record (EvConsoleError "Failed to add user to catalog via provider:" error)
               attempted |}.
Proof.
  intros entityKey cache batch attempted Hc Ha.
  assert (Hadd : addOrUpdateUser userEntity {| this := provider; runtime := rt |}
                 = (Throw error,
                    {| this := {| connection := Some conn; userCache := cache |};
                       runtime := attempted |})).
  { pose proof (addOrUpdateUser_connected userEntity
                  {| this := provider; runtime := rt |} Hc) as H.
    simpl in H. fold entityKey in H. fold cache in H. fold batch in H.
    rewrite Ha in H. rewrite H. unfold attempted. simpl.
    rewrite <- app_assoc. reflexivity. }
  split; [exact Hadd|]. split; [apply map_get_set|].
  intros info fuel Hb. unfold oauth2TokenClaimResolver. rewrite Hb.
  unfold provision, try_catch, getDynamicUserEntityProvider. simpl.
  rewrite Hadd. reflexivity.
Qed.

(** C7 (with the connection the code asks for).  [removeUser] on a key the
    cache does not hold changes nothing and publishes nothing.  On a
    connected provider, [removeUser] on a key the cache holds deletes that
    slot, leaves the other slots as they were, and publishes once the whole
    remaining cache.  On a provider without connection [removeUser] changes
    nothing and publishes nothing. *)
Theorem removeUser_deletes_and_republishes :
  (forall (entityKey : string) (s : PState),
      map_get entityKey (userCache (this s)) = None ->
      removeUser entityKey s = (Ok tt, s)) /\
  (forall (entityKey : string) (s : PState) (conn : Connection) (d : DeferredEntity),
      connection (this s) = Some conn ->
      NoDup (map_keys (userCache (this s))) ->
      map_get entityKey (userCache (this s)) = Some d ->
      let s' := snd (removeUser entityKey s) in
      userCache (this s') = map_delete entityKey (userCache (this s)) /\
      map_get entityKey (userCache (this s')) = None /\
      (forall k, k <> entityKey ->
                 map_get k (userCache (this s')) = map_get k (userCache (this s))) /\
      S (length (map_values (userCache (this s'))))
      = length (map_values (userCache (this s))) /\
      trace (runtime s')
      = trace (runtime s)
        ++ [EvApplyMutation conn (MutationFull (map_values (userCache (this s'))))]) /\
  (forall (entityKey : string) (s : PState),
      connection (this s) = None ->
      removeUser entityKey s = (Ok tt, s)).
Proof.
  split; [|split].
  - intros entityKey s Hg. run_provider. rewrite Hg. reflexivity.
  - intros entityKey s conn d Hc Hnd Hg s'. subst s'. run_provider.
    rewrite Hg, Hc. simpl.
    destruct (applyMutation conn _ (world (runtime s))) as [r w]. simpl.
    split; [reflexivity|]. split; [apply map_get_delete_same; exact Hnd|].
    split; [intros k Hk; apply map_get_delete_other; exact Hk|].
    split; [|reflexivity].
    unfold map_values. rewrite !length_map. apply (map_delete_length _ _ Hg).
  - intros entityKey s Hc. run_provider. rewrite Hc.
    destruct (map_get entityKey (userCache (this s))); reflexivity.
Qed.

(** *** The retry loop *)

Ltac run_resolver :=
  unfold retryBody, ctx_signInWithCatalogUser, sleep, console_error, g_record,
    bind, try_catch, ret, throw, lift, record; simpl.

Lemma retryBody_found (ref : string) (attempt : nat) (g : GState)
    (result : BackstageSignInResult) (w : World) :
  signInWithCatalogUser (QueryEntityRef ref) None (world (gruntime g)) = (Ok result, w) ->
  retryBody ref attempt g
  = (Ok (LoopBreak result),
     {| dynamicUserEntityProvider := dynamicUserEntityProvider g;
        gruntime := {| world := w;
                       trace := trace (gruntime g) ++ [EvSignIn (QueryEntityRef ref) None] |} |}).
Proof.
  intros Hs. run_resolver. rewrite Hs. reflexivity.
Qed.

Lemma retryBody_notFound (ref : string) (attempt : nat) (g : GState)
    (err : value) (w : World) :
  signInWithCatalogUser (QueryEntityRef ref) None (world (gruntime g)) = (Throw err, w) ->
  isNotFound err = true ->
  retryBody ref attempt g
  = (Ok (LoopAgain (S attempt)),
     {| dynamicUserEntityProvider := dynamicUserEntityProvider g;
        gruntime := {| world := elapse RETRY_DELAY_MS w;
                       trace := trace (gruntime g)
                                ++ [EvSignIn (QueryEntityRef ref) None;
                                    EvSleep RETRY_DELAY_MS] |} |}).
Proof.
  intros Hs Hn. unfold isNotFound in Hn. apply andb_true_iff in Hn as [Hshape Hname].
  run_resolver. rewrite Hs. simpl. rewrite Hshape, Hname. simpl.
  rewrite <- app_assoc. reflexivity.
Qed.

Lemma retryBody_otherFailure (ref : string) (attempt : nat) (g : GState)
    (err : value) (w : World) :
  signInWithCatalogUser (QueryEntityRef ref) None (world (gruntime g)) = (Throw err, w) ->
  hasNameAndMessage err = true ->
  strict_eq (get err "name") (VStr "NotFoundError") = false ->
  retryBody ref attempt g
  = (Throw (newError ("Failed to sign in with catalog user: "
                      ++ to_string (get err "message"))),
     {| dynamicUserEntityProvider := dynamicUserEntityProvider g;
        gruntime := {| world := w;
                       trace := trace (gruntime g) ++ [EvSignIn (QueryEntityRef ref) None] |} |}).
Proof.
  intros Hs Hshape Hname. run_resolver. rewrite Hs. simpl. rewrite Hshape, Hname.
  reflexivity.
Qed.

Lemma retryBody_unshaped (ref : string) (attempt : nat) (g : GState)
    (err : value) (w : World) :
  signInWithCatalogUser (QueryEntityRef ref) None (world (gruntime g)) = (Throw err, w) ->
  hasNameAndMessage err = false ->
  retryBody ref attempt g
  = (Ok (LoopAgain attempt),
     {| dynamicUserEntityProvider := dynamicUserEntityProvider g;
        gruntime := {| world := w;
                       trace := trace (gruntime g) ++ [EvSignIn (QueryEntityRef ref) None] |} |}).
Proof.
  intros Hs Hshape. run_resolver. rewrite Hs. simpl. rewrite Hshape. reflexivity.
Qed.

Lemma retryLoop_unfold (fuel : nat) (ref : string) (attempt : nat) (g : GState) :
  retryLoop fuel ref attempt g
  = if (attempt <? MAX_RETRIES)%nat then
      match fuel with
      | O => LoopGoing attempt g
      | S fuel' =>
          match retryBody ref attempt g with
          | (Ok (LoopBreak result), g') => LoopLeft (Ok (Some result)) g'
          | (Ok (LoopAgain attempt'), g') => retryLoop fuel' ref attempt' g'
          | (Throw err, g') => LoopLeft (Throw err) g'
          end
      end
    else LoopLeft (Ok None) g.
Proof. destruct fuel; reflexivity. Qed.

(** With every lookup "not found", the loop leaves after the turns the
    counter still allows, each one a lookup and a wait. *)
Lemma retryLoop_notFound (ref : string) :
  (forall w, exists err w',
      signInWithCatalogUser (QueryEntityRef ref) None w = (Throw err, w')
      /\ isNotFound err = true) ->
  forall (n attempt fuel : nat) (g : GState),
    attempt + n = MAX_RETRIES -> n <= fuel ->
    exists g',
      retryLoop fuel ref attempt g = LoopLeft (Ok None) g' /\
      dynamicUserEntityProvider g' = dynamicUserEntityProvider g /\
      trace (gruntime g')
      = trace (gruntime g)
        ++ concat (repeat [EvSignIn (QueryEntityRef ref) None; EvSleep RETRY_DELAY_MS] n).
Proof.
  intros Hnf. induction n as [|n IH]; intros attempt fuel g Ha Hf;
    rewrite retryLoop_unfold.
  - replace attempt with MAX_RETRIES by lia. simpl.
    exists g. split; [reflexivity|]. split; [reflexivity|]. now rewrite app_nil_r.
  - destruct (Nat.ltb_spec attempt MAX_RETRIES) as [_|Hge]; [|lia].
    destruct fuel as [|fuel]; [lia|].
    destruct (Hnf (world (gruntime g))) as (err & w & Hs & He).
    rewrite (@retryBody_notFound ref attempt g err w Hs He).
    destruct (IH (S attempt) fuel
                {| dynamicUserEntityProvider := dynamicUserEntityProvider g;
                   gruntime := {| world := elapse RETRY_DELAY_MS w;
                                  trace := trace (gruntime g)
                                           ++ [EvSignIn (QueryEntityRef ref) None;
                                               EvSleep RETRY_DELAY_MS] |} |})
      as (g' & Hl & Hp & Ht); [lia|lia|].
    exists g'. split; [exact Hl|]. split; [exact Hp|].
    rewrite Ht. simpl. rewrite <- app_assoc. reflexivity.
Qed.

(** C1.  When every lookup of the reference fails with a "not found"
    error, the retry makes exactly 10 lookups, waits 300 ms after each of
    them (so between any two consecutive attempts), and then fails with an
    error whose message names the reference and the count 10. *)
Theorem notFound_exhausts_retries (ref : string) (fuel : nat) (g : GState) :
  (forall w, exists err w',
      signInWithCatalogUser (QueryEntityRef ref) None w = (Throw err, w')
      /\ isNotFound err = true) ->
  10 <= fuel ->
  let events := concat (repeat [EvSignIn (QueryEntityRef ref) None; EvSleep 300] 10) in
  exists g',
    convergenceRetry fuel ref g
    = Some (Throw (newError ("User entity " ++ ref
                             ++ " not found in catalog after 10 attempts")), g') /\
    trace (gruntime g') = trace (gruntime g) ++ events /\
    lookups events = repeat (QueryEntityRef ref) 10 /\
    sleeps events = repeat 300%Z 10.
Proof.
  intros Hnf Hfuel events.
  destruct (@retryLoop_notFound ref Hnf 10 0 fuel g) as (g' & Hl & _ & Ht);
    [reflexivity|exact Hfuel|].
  exists g'. unfold convergenceRetry. rewrite Hl.
  split; [reflexivity|]. split; [exact Ht|]. split; reflexivity.
Qed.

(** C2 (for failures that carry a name and a message).  When the first
    lookup fails with an object that has a [name] and a [message] and whose
    name is not ['NotFoundError'], the retry makes that one lookup, does not
    wait or retry, and fails with a new error whose message is
    ["Failed to sign in with catalog user: "] followed by the message of the
    failure. *)
Theorem other_failure_aborts_at_once (ref : string) (fuel : nat) (g : GState)
    (err : value) (w : World) :
  signInWithCatalogUser (QueryEntityRef ref) None (world (gruntime g)) = (Throw err, w) ->
  hasNameAndMessage err = true ->
  strict_eq (get err "name") (VStr "NotFoundError") = false ->
  0 < fuel ->
  convergenceRetry fuel ref g
  = Some (Throw (newError ("Failed to sign in with catalog user: "
                           ++ to_string (get err "message"))),
          {| dynamicUserEntityProvider := dynamicUserEntityProvider g;
             gruntime := {| world := w;
                            trace := trace (gruntime g)
                                     ++ [EvSignIn (QueryEntityRef ref) None] |} |}).
Proof.
  intros Hs Hshape Hname Hfuel. destruct fuel as [|fuel]; [lia|].
  unfold convergenceRetry. rewrite retryLoop_unfold. simpl.
  rewrite (@retryBody_otherFailure ref 0 g err w Hs Hshape Hname). reflexivity.
Qed.

Lemma lookups_app (t1 t2 : list Event) :
  lookups (t1 ++ t2) = lookups t1 ++ lookups t2.
Proof.
  induction t1 as [|ev t1 IH]; simpl; [reflexivity|].
  destruct ev; simpl; rewrite IH; reflexivity.
Qed.

Lemma sleeps_app (t1 t2 : list Event) :
  sleeps (t1 ++ t2) = sleeps t1 ++ sleeps t2.
Proof.
  induction t1 as [|ev t1 IH]; simpl; [reflexivity|].
  destruct ev; simpl; rewrite IH; reflexivity.
Qed.

(** The upsert step of the resolver never throws, looks nothing up and does
    not wait. *)
Lemma provision_quiet (userEntity : Entity) (g : GState) :
  fst (provision userEntity g) = Ok tt /\
  lookups (trace (gruntime (snd (provision userEntity g)))) = lookups (trace (gruntime g)) /\
  sleeps (trace (gruntime (snd (provision userEntity g)))) = sleeps (trace (gruntime g)).
Proof.
  unfold provision, try_catch, getDynamicUserEntityProvider, console_error, g_record, record.
  destruct (dynamicUserEntityProvider g) as [p|]; simpl.
  - destruct (connection p) as [conn|] eqn:Hc.
    + pose proof (@addOrUpdateUser_connected userEntity
                    {| this := p; runtime := gruntime g |} conn Hc) as H.
      simpl in H. destruct (applyMutation conn _ (world (gruntime g))) as [[[]|err] w];
        rewrite H; simpl; rewrite ?lookups_app, ?sleeps_app; simpl;
        rewrite ?app_nil_r; repeat split; reflexivity.
    + rewrite (@addOrUpdateUser_unconnected userEntity
                 {| this := p; runtime := gruntime g |} Hc).
      simpl. rewrite lookups_app, sleeps_app. simpl. rewrite !app_nil_r.
      repeat split; reflexivity.
  - rewrite lookups_app, sleeps_app. simpl. rewrite !app_nil_r. repeat split; reflexivity.
Qed.

(** The resolver as a whole, with every lookup "not found": once the user
    entity is built it fails with the not-converged error for the reference
    of that entity, after 10 lookups of it and 10 waits of 300 ms. *)
Lemma resolver_not_converged (info : SignInInfo) (userEntity : Entity)
    (fuel : nat) (g : GState) :
  buildUserEntity info = Ok userEntity ->
  (forall w, exists err w',
      signInWithCatalogUser (QueryEntityRef (stringifyEntityRef userEntity)) None w
      = (Throw err, w')
      /\ isNotFound err = true) ->
  10 <= fuel ->
  exists g',
    oauth2TokenClaimResolver fuel info g
    = Some (Throw (newError (NOT_CONVERGED_MESSAGE (stringifyEntityRef userEntity))), g') /\
    lookups (trace (gruntime g'))
    = lookups (trace (gruntime g))
      ++ repeat (QueryEntityRef (stringifyEntityRef userEntity)) 10 /\
    sleeps (trace (gruntime g')) = sleeps (trace (gruntime g)) ++ repeat 300%Z 10.
Proof.
  intros Hb Hnf Hfuel. unfold oauth2TokenClaimResolver. rewrite Hb.
  destruct (provision_quiet userEntity g) as (Hok & Hlook & Hsleep).
  destruct (provision userEntity g) as [r g1]. simpl in Hok, Hlook, Hsleep. subst r.
  destruct (@retryLoop_notFound (stringifyEntityRef userEntity) Hnf 10 0 fuel g1)
    as (g' & Hl & _ & Ht); [reflexivity|exact Hfuel|].
  exists g'. unfold convergenceRetry. rewrite Hl. split; [reflexivity|].
  rewrite Ht, lookups_app, sleeps_app, Hlook, Hsleep. split; reflexivity.
Qed.

(** With every lookup throwing a value without [name] or [message], the
    loop is still going after any number of turns, its counter unchanged,
    one lookup made per turn. *)
Lemma retryLoop_unshaped (ref : string) :
  (forall w, exists err w',
      signInWithCatalogUser (QueryEntityRef ref) None w = (Throw err, w')
      /\ hasNameAndMessage err = false) ->
  forall (turns attempt : nat) (g : GState),
    attempt < MAX_RETRIES ->
    exists g',
      retryLoop turns ref attempt g = LoopGoing attempt g' /\
      trace (gruntime g')
      = trace (gruntime g) ++ repeat (EvSignIn (QueryEntityRef ref) None) turns.
Proof.
  intros Hun.
  induction turns as [|turns IH]; intros attempt g Ha; rewrite retryLoop_unfold;
    destruct (Nat.ltb_spec attempt MAX_RETRIES) as [_|Hge]; try lia.
  - exists g. split; [reflexivity|]. simpl. now rewrite app_nil_r.
  - destruct (Hun (world (gruntime g))) as (err & w & Hs & He).
    rewrite (@retryBody_unshaped ref attempt g err w Hs He).
    destruct (IH attempt
                {| dynamicUserEntityProvider := dynamicUserEntityProvider g;
                   gruntime := {| world := w;
                                  trace := trace (gruntime g)
                                           ++ [EvSignIn (QueryEntityRef ref) None] |} |} Ha)
      as (g' & Hl & Ht).
    exists g'. split; [exact Hl|]. rewrite Ht. simpl. rewrite <- app_assoc. reflexivity.
Qed.

Lemma convergenceRetry_unshaped (ref : string) :
  (forall w, exists err w',
      signInWithCatalogUser (QueryEntityRef ref) None w = (Throw err, w')
      /\ hasNameAndMessage err = false) ->
  forall (fuel : nat) (g : GState), convergenceRetry fuel ref g = None.
Proof.
  intros Hun fuel g. unfold convergenceRetry.
  destruct (@retryLoop_unshaped ref Hun fuel 0 g) as (g' & Hl & _);
    [unfold MAX_RETRIES; lia|].
  rewrite Hl. reflexivity.
Qed.

(** C10.  When every lookup of the reference throws a value that is not an
    object with both a [name] and a [message], a turn of the loop makes one
    lookup, does not wait, throws nothing and leaves the attempt counter as
    it was; so after any number of turns the loop is still going with its
    counter unchanged, having made that many lookups and no wait, and the
    retry never ends. *)
Theorem unshaped_failure_never_ends (ref : string) :
  (forall w, exists err w',
      signInWithCatalogUser (QueryEntityRef ref) None w = (Throw err, w')
      /\ hasNameAndMessage err = false) ->
  (forall (attempt : nat) (g : GState),
      exists g',
        retryBody ref attempt g = (Ok (LoopAgain attempt), g') /\
        trace (gruntime g') = trace (gruntime g) ++ [EvSignIn (QueryEntityRef ref) None]) /\
  (forall (turns attempt : nat) (g : GState),
      attempt < MAX_RETRIES ->
      exists g',
        retryLoop turns ref attempt g = LoopGoing attempt g' /\
        trace (gruntime g')
        = trace (gruntime g) ++ repeat (EvSignIn (QueryEntityRef ref) None) turns) /\
  (forall (fuel : nat) (g : GState), convergenceRetry fuel ref g = None).
Proof.
  intros Hun.
  assert (Hbody : forall attempt g, exists g',
             retryBody ref attempt g = (Ok (LoopAgain attempt), g') /\
             trace (gruntime g') = trace (gruntime g) ++ [EvSignIn (QueryEntityRef ref) None]).
  { intros attempt g. destruct (Hun (world (gruntime g))) as (err & w & Hs & He).
    eexists. split; [apply (@retryBody_unshaped ref attempt g err w Hs He)|reflexivity]. }
  split; [exact Hbody|]. split; [apply retryLoop_unshaped; exact Hun|].
  apply convergenceRetry_unshaped. exact Hun.
Qed.

(** The same at the level of the resolver: once the user entity is built,
    no amount of fuel lets [oauth2TokenClaimResolver] return. *)
Lemma resolver_never_ends (info : SignInInfo) (userEntity : Entity) :
  buildUserEntity info = Ok userEntity ->
  (forall w, exists err w',
      signInWithCatalogUser (QueryEntityRef (stringifyEntityRef userEntity)) None w
      = (Throw err, w')
      /\ hasNameAndMessage err = false) ->
  forall (fuel : nat) (g : GState), oauth2TokenClaimResolver fuel info g = None.
Proof.
  intros Hb Hun fuel g.
  unfold oauth2TokenClaimResolver. rewrite Hb.
  destruct (provision userEntity g) as [[[]|err] g'] eqn:Hp.
  - apply convergenceRetry_unshaped. exact Hun.
  - exfalso. revert Hp. unfold provision, try_catch, getDynamicUserEntityProvider.
    destruct (dynamicUserEntityProvider g) as [p|]; simpl.
    + destruct (addOrUpdateUser userEntity _) as [[[]|e] s]; discriminate.
    + discriminate.
Qed.

(** C9.  When the profile carries a UUID under the configured key, the ID
    token is there and decodes, and the UUID of the profile is not [===] to
    the one in the decoded ID token, the resolver throws the UUID-mismatch
    error and leaves the state as it found it: [signInWithCatalogUser] is
    not called and there is no sign-in result. *)
Theorem uuid_mismatch_is_rejected
    (options : option LdapOptions) (info : SignInInfo) (full : FullProfile)
    (idToken : string) (payload : value) (g : GState) :
  fullProfile info = Some full ->
  truthy (get (userinfo full) (uuidKeyOf options)) = true ->
  id_token (tokenset full) = Some idToken ->
  idToken <> "" ->
  decodeJwt idToken = Ok payload ->
  strict_eq (get (userinfo full) (uuidKeyOf options))
            (get payload (uuidKeyOf options)) = false ->
  oidcLdapUuidMatchingAnnotation options info g
  = (Throw (newError UUID_MISMATCH_MESSAGE), g) /\
  lookups (trace (gruntime (snd (oidcLdapUuidMatchingAnnotation options info g))))
  = lookups (trace (gruntime g)).
Proof.
  intros Hfull Htruthy Htoken Hne Hdecode Hdiffer.
  assert (H : oidcLdapUuidMatchingAnnotation options info g
              = (Throw (newError UUID_MISMATCH_MESSAGE), g)).
  { unfold oidcLdapUuidMatchingAnnotation. rewrite Hfull, Htruthy, Htoken. simpl.
    destruct (String.eqb_spec idToken "") as [->|_]; [contradiction|].
    unfold bind, lift. rewrite Hdecode, Hdiffer. reflexivity. }
  rewrite H. split; reflexivity.
Qed.

(* ===================================================================== *)
(** ** Further properties of the provider *)
(* ===================================================================== *)

Lemma publishes_app (t1 t2 : list Event) :
  publishes (t1 ++ t2) = publishes t1 ++ publishes t2.
Proof.
  induction t1 as [|ev t1 IH]; simpl; [reflexivity|].
  destruct ev; simpl; rewrite IH; reflexivity.
Qed.

Lemma map_delete_In (V : Type) (k k' : string) (v : V) (m : Map V) :
  In (k', v) (map_delete k m) -> In (k', v) m.
Proof.
  induction m as [|[k0 v0] m IH]; simpl; [intros []|].
  destruct (String.eqb_spec k k0) as [->|Hne]; simpl.
  - intros H. right. exact H.
  - intros [H|H]; [left; exact H|right; apply IH; exact H].
Qed.

Lemma map_delete_NoDup (V : Type) (k : string) (m : Map V) :
  NoDup (map_keys m) -> NoDup (map_keys (map_delete k m)).
Proof.
  induction m as [|[k0 v0] m IH]; simpl; intros Hnd; [constructor|].
  inversion Hnd as [|? ? Hnotin Hnd']; subst.
  destruct (String.eqb_spec k k0) as [->|Hne]; simpl; [exact Hnd'|].
  constructor; [|apply IH; exact Hnd'].
  intros Hin. apply Hnotin. unfold map_keys in *.
  apply in_map_iff in Hin as ([k1 v1] & Hk & Hin). simpl in Hk. subst k1.
  apply in_map_iff. exists (k0, v1). split; [reflexivity|].
  apply (map_delete_In _ _ _ _ Hin).
Qed.

Lemma map_delete_set_fresh (V : Type) (k : string) (v : V) (m : Map V) :
  map_get k m = None -> map_delete k (map_set k v m) = m.
Proof.
  induction m as [|[k0 v0] m IH]; simpl.
  - intros _. now rewrite String.eqb_refl.
  - destruct (String.eqb_spec k k0) as [->|Hne]; [discriminate|].
    intros H. simpl. destruct (String.eqb_spec k k0); [contradiction|].
    now rewrite IH.
Qed.

Lemma map_set_set (V : Type) (k : string) (v1 v2 : V) (m : Map V) :
  map_set k v2 (map_set k v1 m) = map_set k v2 m.
Proof.
  induction m as [|[k0 v0] m IH]; simpl.
  - now rewrite String.eqb_refl.
  - destruct (String.eqb_spec k k0) as [->|Hne]; simpl.
    + now rewrite String.eqb_refl.
    + destruct (String.eqb_spec k k0); [contradiction|]. now rewrite IH.
Qed.



Lemma map_set_values_absent (V : Type) (k : string) (v : V) (m : Map V) :
  map_get k m = None -> map_values (map_set k v m) = map_values m ++ [v].
Proof.
  unfold map_values. induction m as [|[k1 v1] m IH]; simpl; [reflexivity|].
  destruct (String.eqb_spec k k1) as [->|Hne]; simpl; [discriminate|].
  intros H. f_equal. apply IH. exact H.
Qed.

Lemma removeUser_cache (entityKey : string) (s : PState) :
  userCache (this (snd (removeUser entityKey s)))
  = match map_get entityKey (userCache (this s)), connection (this s) with
    | Some _, Some _ => map_delete entityKey (userCache (this s))
    | _, _ => userCache (this s)
    end.
Proof.
  run_provider.
  destruct (map_get entityKey (userCache (this s))) as [d|];
    [destruct (connection (this s)) as [conn|]|]; simpl; try reflexivity.
  destruct (applyMutation conn _ (world (runtime s))) as [r w]. reflexivity.
Qed.

Lemma afterCall_wellKeyed (s : PState) (call : ProviderCall) :
  cacheWellKeyed (userCache (this s)) ->
  cacheWellKeyed (userCache (this (afterCall s call))).
Proof.
  intros [Hnd Hin]. destruct call as [conn|e|k|]; simpl.
  - split; assumption.
  - rewrite addOrUpdateUser_cache. split; [apply map_set_NoDup; exact Hnd|].
    intros k d Hkd. apply map_set_In in Hkd; [|exact Hnd].
    destruct Hkd as [[-> ->]|[_ Hkd]]; [split; reflexivity|apply Hin; exact Hkd].
  - rewrite removeUser_cache.
    destruct (map_get k (userCache (this s))) as [d0|];
      [destruct (connection (this s)) as [conn|]|]; try (split; assumption).
    split; [apply map_delete_NoDup; exact Hnd|].
    intros k' d Hkd. apply Hin. apply (map_delete_In _ _ _ _ Hkd).
  - split; assumption.
Qed.

(** X1.  Whatever methods are called on a new provider, in whatever order
    and whatever the catalog answers, the cache holds at most one slot per
    key, every slot is filed under the stable key of the entity it holds,
    and its location key is ["dynamic-user-provider:"] followed by that
    key. *)
Theorem cache_stays_well_keyed (calls : list ProviderCall) (rt : Runtime) :
  let s := afterCalls calls {| this := new_provider; runtime := rt |} in
  NoDup (map_keys (userCache (this s))) /\
  forall k d, In (k, d) (userCache (this s)) ->
              k = entityKeyOf (entity d) /\
              locationKey d = ("dynamic-user-provider:" ++ k)%string.
Proof.
  intros s. subst s.
  assert (H : forall s0, cacheWellKeyed (userCache (this s0)) ->
                         cacheWellKeyed (userCache (this (afterCalls calls s0)))).
  { induction calls as [|call calls IH]; intros s0 H0; simpl; [exact H0|].
    apply IH. apply afterCall_wellKeyed. exact H0. }
  apply (H {| this := new_provider; runtime := rt |}).
  split; [constructor|intros k d []].
Qed.

Lemma connect_spelled (conn : Connection) (s : PState) :
  connect conn s
  = (Ok tt,
     {| this := {| connection := Some conn; userCache := userCache (this s) |};
        runtime := record (EvLogger LogDebug "Dynamic User Entity Provider connected")
                     (runtime s) |}).
Proof. reflexivity. Qed.

(** Upserts on a provider without connection publish nothing and leave it
    without connection. *)
Lemma upsertAll_unconnected (es : list Entity) (s : PState) :
  connection (this s) = None ->
  connection (this (upsertAll es s)) = None /\
  world (runtime (upsertAll es s)) = world (runtime s) /\
  exists events,
    trace (runtime (upsertAll es s)) = trace (runtime s) ++ events /\
    publishes events = [].
Proof.
  revert s. induction es as [|e es IH]; intros s Hc; simpl.
  - split; [exact Hc|]. split; [reflexivity|].
    exists []. split; [symmetry; apply app_nil_r|reflexivity].
  - fold (upsertAll es (snd (addOrUpdateUser e s))).
    rewrite (addOrUpdateUser_unconnected e s Hc). simpl.
    match goal with |- context [upsertAll es ?s1] =>
      destruct (IH s1 eq_refl) as (Hc' & Hw & events & Ht & Hp) end.
    split; [exact Hc'|]. split; [exact Hw|].
    eexists. split; [rewrite Ht; simpl; rewrite <- app_assoc; reflexivity|].
    simpl. exact Hp.
Qed.

(** X2.  Users upserted before the catalog connects are kept and not
    published; [connect] publishes nothing either; the first upsert after
    [connect] makes the one publish of the whole run, on that connection,
    and its batch holds a slot for every key upserted so far. *)
Theorem first_publish_after_connect_carries_all
    (before : list Entity) (conn : Connection) (userEntity : Entity) (rt : Runtime) :
  let s := snd (addOrUpdateUser userEntity
             (snd (connect conn
                (upsertAll before {| this := new_provider; runtime := rt |})))) in
  exists events,
    trace (runtime s) = trace rt ++ events /\
    publishes events = [(conn, MutationFull (map_values (userCache (this s))))] /\
    forall e, In e (before ++ [userEntity]) ->
              In (entityKeyOf e) (map_keys (userCache (this s))).
Proof.
  intros s. subst s.
  set (s0 := upsertAll before {| this := new_provider; runtime := rt |}).
  destruct (upsertAll_unconnected before {| this := new_provider; runtime := rt |} eq_refl)
    as (_ & _ & ev0 & Ht0 & Hp0). fold s0 in Ht0. simpl in Ht0.
  destruct (upsertAll_cache before None rt) as [_ Hin]. fold new_provider in Hin.
  fold s0 in Hin.
  rewrite connect_spelled.
  set (s1 := {| this := {| connection := Some conn; userCache := userCache (this s0) |};
                runtime := record (EvLogger LogDebug
                                     "Dynamic User Entity Provider connected") (runtime s0) |}).
  pose proof (@addOrUpdateUser_connected userEntity s1 conn eq_refl) as H. simpl in H.
  destruct (applyMutation conn _ (world (runtime s0))) as [r w]. simpl.
  rewrite H. simpl. rewrite Ht0.
  eexists. split; [rewrite <- !app_assoc; reflexivity|]. split.
  - rewrite !publishes_app, Hp0. destruct r; reflexivity.
  - intros e He. apply map_keys_set. apply in_app_or in He as [He|[<-|[]]].
    + right. assert (Hk : In (entityKeyOf e) (map entityKeyOf before))
        by (apply in_map; exact He).
      apply lastUpsert_defined in Hk as [e' He'].
      unfold map_keys. apply in_map_iff. exists (entityKeyOf e, deferredOf e').
      split; [reflexivity|]. apply Hin. exists e'. split; [exact He'|reflexivity].
    + left. reflexivity.
Qed.

(** X3.  When the publish of [removeUser] fails, the failure reaches the
    caller as it is, nothing is logged, and the slot stays deleted: the
    cache is not rolled back. *)
Theorem removeUser_failure_not_rolled_back
    (entityKey : string) (s : PState) (conn : Connection) (d : DeferredEntity)
    (error : value) (w : World) :
  let cache := map_delete entityKey (userCache (this s)) in
  connection (this s) = Some conn ->
  NoDup (map_keys (userCache (this s))) ->
  map_get entityKey (userCache (this s)) = Some d ->
  applyMutation conn (MutationFull (map_values cache)) (world (runtime s)) = (Throw error, w) ->
  removeUser entityKey s
  = (Throw error,
     {| this := {| connection := Some conn; userCache := cache |};
        runtime := {| world := w;
                      trace := trace (runtime s)
                               ++ [EvApplyMutation conn (MutationFull (map_values cache))] |} |})
  /\ map_get entityKey cache = None.
Proof.
  intros cache Hc Hnd Hg Ha. split; [|apply map_get_delete_same; exact Hnd].
  unfold cache in *. run_provider. rewrite Hg, Hc. simpl. rewrite Ha, Hc. reflexivity.
Qed.

(** X4.  On a connected provider, upserting a user whose key the cache does
    not hold and then removing that key gives the cache back as it was; the
    two calls publish twice: the cache with the user, then the cache as it
    was. *)
Theorem upsert_then_remove_restores_cache
    (userEntity : Entity) (s : PState) (conn : Connection) :
  connection (this s) = Some conn ->
  map_get (entityKeyOf userEntity) (userCache (this s)) = None ->
  let s' := snd (removeUser (entityKeyOf userEntity) (snd (addOrUpdateUser userEntity s))) in
  userCache (this s') = userCache (this s) /\
  exists events,
    trace (runtime s') = trace (runtime s) ++ events /\
    publishes events
    = [(conn, MutationFull (map_values (userCache (this s))
                            ++ [deferredOf userEntity]));
       (conn, MutationFull (map_values (userCache (this s))))].
Proof.
  intros Hc Hg s'. subst s'.
  pose proof (map_set_values_absent _ (deferredOf userEntity) _ Hg) as Hvals.
  pose proof (@addOrUpdateUser_connected userEntity s conn Hc) as H. simpl in H.
  destruct (applyMutation conn _ (world (runtime s))) as [r w]. rewrite H. simpl.
  run_provider. rewrite map_get_set. simpl.
  destruct (applyMutation conn _ w) as [r' w']. simpl.
  rewrite (map_delete_set_fresh _ _ _ Hg). split; [reflexivity|].
  eexists. split; [rewrite <- !app_assoc; reflexivity|].
  rewrite <- Hvals. destruct r; reflexivity.
Qed.


Lemma append_separator_inj (c : ascii) (a b x y : string) :
  occurs c a = false -> occurs c b = false ->
  (a ++ String c x)%string = (b ++ String c y)%string ->
  a = b /\ x = y.
Proof.
  revert b. induction a as [|h a IH]; intros [|h' b]; simpl; intros Ha Hb Heq.
  - injection Heq as ->. split; reflexivity.
  - injection Heq as <- _. rewrite Ascii.eqb_refl in Hb. discriminate.
  - injection Heq as -> _. rewrite Ascii.eqb_refl in Ha. discriminate.
  - injection Heq as <- Heq.
    apply Bool.orb_false_iff in Ha as [_ Ha]. apply Bool.orb_false_iff in Hb as [_ Hb].
    destruct (IH b Ha Hb Heq) as [-> ->]. split; reflexivity.
Qed.

(** X6.  The stable key tells users apart: two entities whose kinds hold no
    [':'] and whose namespaces are given and hold no ['/'] have the same key
    only if they have the same kind, namespace and name. *)
Theorem entityKey_identifies_entity (e1 e2 : Entity) (ns1 ns2 : string) :
  namespace (metadata e1) = Some ns1 ->
  namespace (metadata e2) = Some ns2 ->
  occurs ":" (kind e1) = false -> occurs ":" (kind e2) = false ->
  occurs "/" ns1 = false -> occurs "/" ns2 = false ->
  entityKeyOf e1 = entityKeyOf e2 ->
  kind e1 = kind e2 /\ ns1 = ns2 /\ name (metadata e1) = name (metadata e2).
Proof.
  unfold entityKeyOf. intros -> -> Hk1 Hk2 Hn1 Hn2 Heq.
  change (":" ++ ns1 ++ "/" ++ name (metadata e1))%string
    with (String ":" (ns1 ++ String "/" (name (metadata e1))))%string in Heq.
  change (":" ++ ns2 ++ "/" ++ name (metadata e2))%string
    with (String ":" (ns2 ++ String "/" (name (metadata e2))))%string in Heq.
  destruct (append_separator_inj _ _ _ _ _ Hk1 Hk2 Heq) as [Hkind Hrest].
  destruct (append_separator_inj _ _ _ _ _ Hn1 Hn2 Hrest) as [Hns Hname].
  split; [exact Hkind|]. split; assumption.
Qed.

(** X7.  The user entity built at sign-in is filed under
    ["User:default/"] followed by the local part of the email, so two
    emails with the same local part share one slot: after both have been
    upserted the cache is what the second alone would have left, and the
    slot holds the second. *)
Theorem same_local_part_shares_slot
    (address1 address2 : string) (entitlements1 entitlements2 : list value) (s : PState) :
  let user1 := userEntityOf address1 entitlements1 in
  let user2 := userEntityOf address2 entitlements2 in
  entityKeyOf user1 = ("User:default/" ++ usernameOf address1)%string /\
  (usernameOf address1 = usernameOf address2 ->
   userCache (this (snd (addOrUpdateUser user2 (snd (addOrUpdateUser user1 s)))))
   = userCache (this (snd (addOrUpdateUser user2 s))) /\
   map_get (entityKeyOf user1)
     (userCache (this (snd (addOrUpdateUser user2 (snd (addOrUpdateUser user1 s))))))
   = Some (deferredOf user2)).
Proof.
  intros user1 user2. split; [reflexivity|]. intros Hsame.
  assert (Hk : entityKeyOf user1 = entityKeyOf user2).
  { unfold user1, user2, entityKeyOf, userEntityOf. simpl. now rewrite Hsame. }
  rewrite !addOrUpdateUser_cache, Hk. split; [apply map_set_set|apply map_get_set].
Qed.

(* ===================================================================== *)
(** ** Further properties of the module and of the retry *)
(* ===================================================================== *)

(** X8.  While the module variable is unset the getter throws; in
    [oauth2TokenClaimResolver] that failure too is caught and written to the
    console, nothing is cached or published, and the resolver goes on to the
    retry loop. *)
Theorem uninitialised_provider_does_not_stop_sign_in
    (info : SignInInfo) (userEntity : Entity) (fuel : nat) (rt : Runtime) :
  buildUserEntity info = Ok userEntity ->
  oauth2TokenClaimResolver fuel info
    {| dynamicUserEntityProvider := None; gruntime := rt |}
  = convergenceRetry fuel (stringifyEntityRef userEntity)
      {| dynamicUserEntityProvider := None;
         gruntime :=
           record (EvConsoleError "Failed to add user to catalog via provider:"
                     (newError
                        "DynamicUserEntityProvider has not been initialized yet. Ensure the dynamicUsersModule has been registered and initialized."))
             rt |}.
Proof.
  intros Hb. unfold oauth2TokenClaimResolver. rewrite Hb. reflexivity.
Qed.

(** X9.  After [init] the provider is new, whatever was there before: it
    holds no user and has no connection, so the first user upserted through
    the getter is cached alone, a warning is logged, nothing is published
    and the call succeeds. *)
Theorem upsert_right_after_init (userEntity : Entity) (g : GState) :
  let g1 := snd (init g) in
  fst (getDynamicUserEntityProvider getAllUsers g1) = Ok [] /\
  getDynamicUserEntityProvider (addOrUpdateUser userEntity) g1
  = (Ok tt,
     {| dynamicUserEntityProvider :=
          Some {| connection := None;
                  userCache := [(entityKeyOf userEntity, deferredOf userEntity)] |};
        gruntime := record (EvLogger LogWarn "No connection available to catalog")
                      (gruntime g) |}).
Proof.
  split; reflexivity.
Qed.

(** X10.  When the lookup is "not found" [misses] times (fewer than 10) and
    then settles, the retry makes [misses + 1] lookups with a 300 ms wait
    after each miss and none after the last lookup, and hands over the
    result found, or for a failure a new error whose message is
    ["Failed to sign in with catalog user: "] followed by the message of
    the failure. *)
Theorem retry_settles_after_misses
    (ref : string) (misses fuel : nat) (g : GState)
    (outcome : Res BackstageSignInResult) (w : World) :
  SettlesAfter ref misses (world (gruntime g)) outcome w ->
  misses < 10 ->
  misses < fuel ->
  convergenceRetry fuel ref g
  = Some (handedOver outcome,
          {| dynamicUserEntityProvider := dynamicUserEntityProvider g;
             gruntime :=
               {| world := w;
                  trace := trace (gruntime g)
                           ++ concat (repeat [EvSignIn (QueryEntityRef ref) None;
                                              EvSleep 300] misses)
                           ++ [EvSignIn (QueryEntityRef ref) None] |} |}).
Proof.
  intros Hs Hm Hf.
  assert (Hloop : forall w0, SettlesAfter ref misses w0 outcome w ->
             forall fuel g attempt,
             world (gruntime g) = w0 -> misses < fuel ->
             attempt + misses < MAX_RETRIES ->
             retryLoop fuel ref attempt g
             = LoopLeft (match outcome with
                         | Ok result => Ok (Some result)
                         | Throw err =>
                             Throw (newError ("Failed to sign in with catalog user: "
                                              ++ to_string (get err "message")))
                         end)
                 {| dynamicUserEntityProvider := dynamicUserEntityProvider g;
                    gruntime :=
                      {| world := w;
                         trace := trace (gruntime g)
                                  ++ concat (repeat [EvSignIn (QueryEntityRef ref) None;
                                                     EvSleep 300] misses)
                                  ++ [EvSignIn (QueryEntityRef ref) None] |} |}).
  { clear. intros w0 Hs.
    induction Hs as [w0 w' result Hcall|w0 w' err Hcall Hshape Hname
                    |misses w0 w1 w' err outcome Hcall Hnf Hs IH];
      intros fuel g attempt Hw Hf Ha; subst w0; rewrite retryLoop_unfold;
      (destruct (Nat.ltb_spec attempt MAX_RETRIES) as [_|Hge]; [|lia]);
      (destruct fuel as [|fuel]; [lia|]).
    - rewrite (@retryBody_found ref attempt g result w' Hcall). reflexivity.
    - rewrite (@retryBody_otherFailure ref attempt g err w' Hcall Hshape Hname).
      reflexivity.
    - rewrite (@retryBody_notFound ref attempt g err w1 Hcall Hnf).
      rewrite IH; [|reflexivity|lia|lia].
      simpl. rewrite <- app_assoc. reflexivity. }
  unfold convergenceRetry.
  rewrite (Hloop _ Hs fuel g 0 eq_refl Hf) by (unfold MAX_RETRIES; lia).
  destruct outcome; reflexivity.
Qed.



(* ===================================================================== *)
(** ** Further properties of the claim decoding *)
(* ===================================================================== *)

(** X12.  Whatever keeps the user entity from being built is thrown before
    anything is cached, published or looked up: a token that is absent or
    does not decode (even when the email is missing too), then a missing or
    empty email, then a [groups] claim that is there but is not a list. *)
Theorem rejected_before_any_effect (info : SignInInfo) (fuel : nat) (g : GState) :
  (forall err, decodeClaims info = Throw err ->
               oauth2TokenClaimResolver fuel info g = Some (Throw err, g)) /\
  ((fullProfile info = None \/
    exists full, fullProfile info = Some full /\ access_token (tokenset full) = None) ->
   oauth2TokenClaimResolver fuel info g = Some (Throw (undefined_read "1"), g)) /\
  (forall claims,
      decodeClaims info = Ok claims ->
      nonEmpty (email (profile info)) = false ->
      oauth2TokenClaimResolver fuel info g
      = Some (Throw (newError "Login failed, user profile does not contain an email"), g)) /\
  (forall claims,
      decodeClaims info = Ok claims ->
      nonEmpty (email (profile info)) = true ->
      is_nullish (get claims "groups") = false ->
      (forall l, get claims "groups" <> VArr l) ->
      exists message,
        oauth2TokenClaimResolver fuel info g = Some (Throw (newTypeError message), g)).
Proof.
  unfold oauth2TokenClaimResolver, buildUserEntity. split; [|split; [|split]].
  - intros err ->. reflexivity.
  - intros H. assert (Hd : decodeClaims info = Throw (undefined_read "1")).
    { unfold decodeClaims. destruct H as [->|(full & -> & ->)]; reflexivity. }
    rewrite Hd. reflexivity.
  - intros claims -> Hm. destruct (email (profile info)) as [[|a address]|];
      [reflexivity|discriminate|reflexivity].
  - intros claims -> Hm Hn Harr.
    destruct (email (profile info)) as [[|a address]|]; try discriminate.
    unfold entitlementsOf, nullish_or. rewrite Hn.
    destruct (get claims "groups") as [| | | | |l|] eqn:Hg;
      try discriminate; try (eexists; reflexivity).
    exfalso. apply (Harr l). reflexivity.
Qed.

(** X13.  A role claim that is a single value and not a list counts as one
    entitlement, after the groups: with groups [gs] and the string [r] at
    [resource_access.octo.roles], the member-of list of the user entity is
    the group references of [gs] followed by ["group:default/" ++ r]. *)
Theorem single_role_is_one_entitlement
    (claims : value) (gs : list string) (r address : string) :
  optional_strings (get claims "groups") gs ->
  get (get (get claims "resource_access") "octo") "roles" = VStr r ->
  entitlementsOf claims = Ok (map VStr (gs ++ [r])) /\
  get (spec (userEntityOf address (map VStr (gs ++ [r])))) "memberOf"
  = VArr (map VStr (map (String.append "group:default/") (gs ++ [r]))).
Proof.
  intros Hg Hr. split.
  - unfold entitlementsOf. rewrite Hr.
    assert (Eg : nullish_or (get claims "groups") (VArr []) = VArr (map VStr gs)).
    { destruct Hg as [->|[Hn ->]]; unfold nullish_or; [reflexivity|now rewrite Hn]. }
    rewrite Eg. simpl. now rewrite map_app.
  - unfold userEntityOf. simpl. now rewrite groupRef_strings.
Qed.

(* ===================================================================== *)
(** ** Further properties of the single-lookup resolvers *)
(* ===================================================================== *)


(** X15.  When the UUIDs match, [oidcLdapUuidMatchingAnnotation] makes one
    catalog call, by the annotation ["backstage.io/ldap-uuid"] set to the
    UUID, offers the UUID as fallback reference only when
    [dangerouslyAllowSignInWithoutUserInCatalog] is [true], and hands over
    what the catalog answers, result or failure. *)
Theorem matching_uuid_looks_up_by_annotation
    (options : option LdapOptions) (info : SignInInfo) (full : FullProfile)
    (idToken : string) (payload : value) (g : GState)
    (answer : Res BackstageSignInResult) (w : World) :
  let uuid := get (userinfo full) (uuidKeyOf options) in
  let query := QueryAnnotations [("backstage.io/ldap-uuid", uuid)] in
  let fallback :=
    Some {| dangerousEntityRefFallback :=
              match options with
              | Some {| dangerouslyAllowSignInWithoutUserInCatalog := Some true |} => Some uuid
              | _ => None
              end |} in
  fullProfile info = Some full ->
  truthy uuid = true ->
  id_token (tokenset full) = Some idToken ->
  idToken <> "" ->
  decodeJwt idToken = Ok payload ->
  strict_eq uuid (get payload (uuidKeyOf options)) = true ->
  signInWithCatalogUser query fallback (world (gruntime g)) = (answer, w) ->
  oidcLdapUuidMatchingAnnotation options info g
  = (answer,
     {| dynamicUserEntityProvider := dynamicUserEntityProvider g;
        gruntime := {| world := w;
                       trace := trace (gruntime g) ++ [EvSignIn query fallback] |} |}).
Proof.
  intros uuid query fallback Hfull Htruthy Htoken Hne Hdecode Hsame Hcall.
  subst uuid query fallback.
  unfold oidcLdapUuidMatchingAnnotation. rewrite Hfull, Htruthy, Htoken. simpl.
  destruct (String.eqb_spec idToken "") as [->|_]; [contradiction|].
  unfold bind, lift. rewrite Hdecode, Hsame. simpl.
  unfold ctx_signInWithCatalogUser, LDAP_UUID_ANNOTATION.
  destruct options as [[[[|]|] key]|]; simpl in *; rewrite Hcall; reflexivity.
Qed.


(** X17.  The resolvers by name never sign in under an empty name: the name
    handed to the catalog is the truthy [preferred_username] of the
    profile, respectively a non-empty header value, and it is offered as
    fallback reference only when
    [dangerouslyAllowSignInWithoutUserInCatalog] is [true]. *)
Theorem by_name_needs_a_name :
  (forall options info entityName o,
      preferredUsernameMatchingUserEntityName options info = SignInByName entityName o ->
      truthy entityName = true /\
      (exists full, fullProfile info = Some full /\
                    entityName = get (userinfo full) "preferred_username") /\
      (forall x, dangerousEntityRefFallback o = Some x ->
                 x = entityName /\
                 exists opts, options = Some opts /\
                   ByName.dangerouslyAllowSignInWithoutUserInCatalog opts = Some true)) /\
  (forall options header getHeader entityName o,
      oauth2ProxyUserHeaderMatchingUserEntityName options header getHeader
      = SignInByName entityName o ->
      (exists n h, entityName = VStr n /\ n <> "" /\ getHeader h = Some n) /\
      (forall x, dangerousEntityRefFallback o = Some x ->
                 x = entityName /\
                 exists opts, options = Some opts /\
                   ByName.dangerouslyAllowSignInWithoutUserInCatalog opts = Some true)).
Proof.
  assert (Hfb : forall options x y, fallbackFor options x = Some y ->
            y = x /\ exists opts, options = Some opts /\
              ByName.dangerouslyAllowSignInWithoutUserInCatalog opts = Some true).
  { intros [[[[|]|]]|] x y; simpl; try discriminate.
    intros [= <-]. split; [reflexivity|]. eexists. split; reflexivity. }
  split.
  - intros options info entityName o. unfold preferredUsernameMatchingUserEntityName.
    destruct (fullProfile info) as [full|]; [|discriminate].
    assert (Hgen : (if negb (truthy (get (userinfo full) "preferred_username"))
                    then Rejected (newError "OIDC user profile does not contain a username")
                    else SignInByName (get (userinfo full) "preferred_username")
                           {| dangerousEntityRefFallback :=
                                fallbackFor options (get (userinfo full) "preferred_username") |})
                   = SignInByName entityName o ->
                   truthy entityName = true /\
                   (exists full0, Some full = Some full0 /\
                                  entityName = get (userinfo full0) "preferred_username") /\
                   (forall x, dangerousEntityRefFallback o = Some x ->
                      x = entityName /\ exists opts, options = Some opts /\
                        ByName.dangerouslyAllowSignInWithoutUserInCatalog opts = Some true)).
    { destruct (truthy (get (userinfo full) "preferred_username")) eqn:Ht; simpl;
        [|discriminate].
      intros [= <- <-]. split; [exact Ht|]. split; [exists full; split; reflexivity|].
      simpl. intros x Hx. apply (Hfb _ _ _ Hx). }
    destruct (userinfo full) eqn:Hu; try discriminate; exact Hgen.
  - intros options header getHeader entityName o.
    unfold oauth2ProxyUserHeaderMatchingUserEntityName.
    set (userName := match header with
                     | Some h => if nonEmpty (Some h) then getHeader h
                                 else if nonEmpty (getHeader "x-forwarded-preferred-username")
                                      then getHeader "x-forwarded-preferred-username"
                                      else getHeader "x-forwarded-user"
                     | None => if nonEmpty (getHeader "x-forwarded-preferred-username")
                               then getHeader "x-forwarded-preferred-username"
                               else getHeader "x-forwarded-user"
                     end).
    assert (Hsrc : forall n, userName = Some n -> exists h, getHeader h = Some n).
    { intros n. unfold userName.
      destruct header as [h|];
        [destruct (nonEmpty (Some h)); [intros H; exists h; exact H|]|];
        (destruct (nonEmpty (getHeader "x-forwarded-preferred-username"));
         intros H; eexists; exact H). }
    destruct userName as [n|]; [|discriminate].
    destruct (nonEmpty (Some n)) eqn:Hn; [|discriminate].
    intros [= <- <-]. split.
    + destruct (Hsrc n eq_refl) as [h Hh]. exists n, h. split; [reflexivity|].
      split; [|exact Hh]. intros ->. discriminate.
    + simpl. intros x Hx. apply (Hfb _ _ _ Hx).
Qed.

(** X18.  With [OAUTH_USER_HEADER] set, the header resolver reads that
    header only: its outcome is the same for two requests that agree on
    that header, and a request without it is rejected whatever its
    forwarded-user headers hold. *)
Theorem override_header_is_the_only_one_read
    (options : option ByName.Options) (header : string)
    (getHeader getHeader' : string -> option string) :
  header <> "" ->
  (getHeader header = getHeader' header ->
   oauth2ProxyUserHeaderMatchingUserEntityName options (Some header) getHeader
   = oauth2ProxyUserHeaderMatchingUserEntityName options (Some header) getHeader') /\
  (nonEmpty (getHeader header) = false ->
   oauth2ProxyUserHeaderMatchingUserEntityName options (Some header) getHeader
   = Rejected (newError "Request did not contain a user")).
Proof.
  intros Hne. unfold oauth2ProxyUserHeaderMatchingUserEntityName.
  assert (Hh : nonEmpty (Some header) = true).
  { simpl. destruct (String.eqb_spec header ""); [contradiction|reflexivity]. }
  rewrite Hh. split.
  - intros ->. reflexivity.
  - intros Hempty. destruct (getHeader header) as [n|]; [|reflexivity].
    rewrite Hempty. reflexivity.
Qed.

(** X19.  Without [OAUTH_USER_HEADER] (unset or empty), a non-empty
    [x-forwarded-preferred-username] is the name signed in, whatever
    [x-forwarded-user] holds; otherwise a non-empty [x-forwarded-user] is;
    and the request is rejected when neither is there. *)
Theorem forwarded_headers_in_order
    (options : option ByName.Options) (header : option string)
    (getHeader : string -> option string) :
  nonEmpty header = false ->
  (forall n, getHeader "x-forwarded-preferred-username" = Some n -> n <> "" ->
             oauth2ProxyUserHeaderMatchingUserEntityName options header getHeader
             = SignInByName (VStr n)
                 {| dangerousEntityRefFallback := fallbackFor options (VStr n) |}) /\
  (forall n, nonEmpty (getHeader "x-forwarded-preferred-username") = false ->
             getHeader "x-forwarded-user" = Some n -> n <> "" ->
             oauth2ProxyUserHeaderMatchingUserEntityName options header getHeader
             = SignInByName (VStr n)
                 {| dangerousEntityRefFallback := fallbackFor options (VStr n) |}) /\
  (nonEmpty (getHeader "x-forwarded-preferred-username") = false ->
   nonEmpty (getHeader "x-forwarded-user") = false ->
   oauth2ProxyUserHeaderMatchingUserEntityName options header getHeader
   = Rejected (newError "Request did not contain a user")).
Proof.
  intros Hnone.
  assert (Hname : forall n, n <> "" -> nonEmpty (Some n) = true).
  { intros n Hn. simpl. destruct (String.eqb_spec n ""); [contradiction|reflexivity]. }
  assert (Hunfold :
    oauth2ProxyUserHeaderMatchingUserEntityName options header getHeader
    = match (if nonEmpty (getHeader "x-forwarded-preferred-username")
             then getHeader "x-forwarded-preferred-username"
             else getHeader "x-forwarded-user") with
      | Some n =>
          if nonEmpty (Some n)
          then SignInByName (VStr n)
                 {| dangerousEntityRefFallback := fallbackFor options (VStr n) |}
          else Rejected (newError "Request did not contain a user")
      | None => Rejected (newError "Request did not contain a user")
      end).
  { unfold oauth2ProxyUserHeaderMatchingUserEntityName.
    destruct header as [h|]; [rewrite Hnone|]; reflexivity. }
  rewrite Hunfold. split; [|split].
  - intros n Hp Hn. rewrite Hp, (Hname n Hn). cbv beta iota.
    rewrite (Hname n Hn). reflexivity.
  - intros n Hp Hu Hn. rewrite Hp, Hu. cbv beta iota.
    rewrite (Hname n Hn). reflexivity.
  - intros Hp Hu. rewrite Hp. destruct (getHeader "x-forwarded-user") as [n|];
      [rewrite Hu|]; reflexivity.
Qed.

(* ===================================================================== *)
(** ** Further properties of the provisioning resolver *)
(* ===================================================================== *)

(** X20.  With an initialised provider, whatever the publish answers, the
    user entity is in the cache under its key before the first lookup: the
    upsert step never throws, looks nothing up, keeps the connection, and
    the resolver's outcome is that of the retry run from the state it
    leaves. *)
Theorem user_is_cached_before_first_lookup
    (info : SignInInfo) (userEntity : Entity) (fuel : nat) (g : GState)
    (provider : DynamicUserEntityProvider) :
  buildUserEntity info = Ok userEntity ->
  dynamicUserEntityProvider g = Some provider ->
  let g1 := snd (provision userEntity g) in
  oauth2TokenClaimResolver fuel info g
  = convergenceRetry fuel (stringifyEntityRef userEntity) g1 /\
  lookups (trace (gruntime g1)) = lookups (trace (gruntime g)) /\
  exists provider1,
    dynamicUserEntityProvider g1 = Some provider1 /\
    connection provider1 = connection provider /\
    map_get (entityKeyOf userEntity) (userCache provider1) = Some (deferredOf userEntity).
Proof.
  intros Hb Hp g1. subst g1.
  destruct (provision_quiet userEntity g) as (Hok & Hlook & _).
  split; [|split; [exact Hlook|]].
  - unfold oauth2TokenClaimResolver. rewrite Hb.
    destruct (provision userEntity g) as [r g1]. simpl in Hok. subst r. reflexivity.
  - clear Hok Hlook.
    unfold provision, try_catch, getDynamicUserEntityProvider, console_error, g_record.
    rewrite Hp.
    destruct (connection provider) as [conn|] eqn:Hc.
    + pose proof (@addOrUpdateUser_connected userEntity
                    {| this := provider; runtime := gruntime g |} conn Hc) as H.
      simpl in H. destruct (applyMutation conn _ (world (gruntime g))) as [[[]|err] w];
        rewrite H; simpl; eexists; (split; [reflexivity|]);
        (split; [reflexivity|apply map_get_set]).
    + rewrite (@addOrUpdateUser_unconnected userEntity
                 {| this := provider; runtime := gruntime g |} Hc).
      simpl. eexists. split; [reflexivity|]. split; [reflexivity|apply map_get_set].
Qed.

(** X21.  The name of the user entity never holds an ['@']; it is the whole
    email when the email has no ['@'], and it is empty when the email
    begins with ['@'] (such an email is not refused). *)
Theorem username_edge_cases :
  (forall address, occurs "@" (usernameOf address) = false) /\
  (forall address, occurs "@" address = false -> usernameOf address = address) /\
  (forall rest entitlements,
      name (metadata (userEntityOf (String "@" rest) entitlements)) = "").
Proof.
  split; [|split].
  - intros address.
    destruct (usernameOf_before_at address) as [(rest & _ & Hocc)|[Heq Hocc]];
      [exact Hocc|]. rewrite <- Heq. exact Hocc.
  - intros address Hocc. apply (@before_first_unique "@" address).
    + apply usernameOf_before_at.
    + right. split; [reflexivity|exact Hocc].
  - reflexivity.
Qed.

Lemma retryBody_keeps_provider (ref : string) (attempt : nat) (g : GState) :
  dynamicUserEntityProvider (snd (retryBody ref attempt g)) = dynamicUserEntityProvider g /\
  exists events,
    trace (gruntime (snd (retryBody ref attempt g))) = trace (gruntime g) ++ events /\
    publishes events = [].
Proof.
  destruct (signInWithCatalogUser (QueryEntityRef ref) None (world (gruntime g)))
    as [[result|err] w] eqn:Hcall.
  - rewrite (@retryBody_found ref attempt g result w Hcall). simpl.
    split; [reflexivity|]. eexists. split; reflexivity.
  - destruct (hasNameAndMessage err) eqn:Hshape.
    + destruct (strict_eq (get err "name") (VStr "NotFoundError")) eqn:Hname.
      * assert (Hnf : isNotFound err = true)
          by (unfold isNotFound; rewrite Hshape, Hname; reflexivity).
        rewrite (@retryBody_notFound ref attempt g err w Hcall Hnf). simpl.
        split; [reflexivity|]. eexists. split; reflexivity.
      * rewrite (@retryBody_otherFailure ref attempt g err w Hcall Hshape Hname). simpl.
        split; [reflexivity|]. eexists. split; reflexivity.
    + rewrite (@retryBody_unshaped ref attempt g err w Hcall Hshape). simpl.
      split; [reflexivity|]. eexists. split; reflexivity.
Qed.

Lemma retryLoop_keeps_provider (ref : string) (fuel attempt : nat) (g : GState) :
  let g' := match retryLoop fuel ref attempt g with
            | LoopLeft _ g' => g'
            | LoopGoing _ g' => g'
            end in
  dynamicUserEntityProvider g' = dynamicUserEntityProvider g /\
  exists events,
    trace (gruntime g') = trace (gruntime g) ++ events /\ publishes events = [].
Proof.
  revert attempt g. induction fuel as [|fuel IH]; intros attempt g;
    rewrite retryLoop_unfold; destruct (attempt <? MAX_RETRIES)%nat; simpl;
    try (split; [reflexivity|]; exists []; split; [symmetry; apply app_nil_r|reflexivity]).
  destruct (retryBody_keeps_provider ref attempt g) as (Hp & ev & Ht & Hpub).
  destruct (retryBody ref attempt g) as [[[result|attempt']|err] g1]; simpl in *;
    try (split; [exact Hp|]; exists ev; split; assumption).
  destruct (IH attempt' g1) as (Hp' & ev' & Ht' & Hpub').
  split; [rewrite Hp'; exact Hp|].
  exists (ev ++ ev'). rewrite Ht', Ht, <- app_assoc. split; [reflexivity|].
  rewrite publishes_app, Hpub, Hpub'. reflexivity.
Qed.

(** X22.  The retry never touches the provider: however it ends, the cache
    and the connection are as it found them and it has published
    nothing. *)
Theorem retry_never_touches_provider
    (ref : string) (fuel : nat) (g g' : GState) (outcome : Res BackstageSignInResult) :
  convergenceRetry fuel ref g = Some (outcome, g') ->
  dynamicUserEntityProvider g' = dynamicUserEntityProvider g /\
  exists events,
    trace (gruntime g') = trace (gruntime g) ++ events /\ publishes events = [].
Proof.
  unfold convergenceRetry. intros H.
  pose proof (retryLoop_keeps_provider ref fuel 0 g) as Hk. simpl in Hk.
  destruct (retryLoop fuel ref 0 g) as [[[result|]|err] g1|a g1];
    try discriminate; injection H as _ <-; exact Hk.
Qed.

End Program.

(* ===================================================================== *)
(** ** The properties on examples *)
(* ===================================================================== *)

Local Notation rt0 := {| world := tt; trace := @nil (Event nat) |}.
Local Notation g0 := {| dynamicUserEntityProvider := @None (DynamicUserEntityProvider nat);
                        gruntime := rt0 |}.
Local Notation jdoeRef := "user:default/jdoe".
Local Notation jdoeKey := "User:default/jdoe".

Example split_email : split "@" "jdoe@example.com" = ["jdoe"; "example.com"].
Proof. reflexivity. Qed.

Example jdoe_name : usernameOf "jdoe@example.com" = "jdoe".
Proof. reflexivity. Qed.

Example not_converged_message :
  NOT_CONVERGED_MESSAGE jdoeRef
  = "User entity user:default/jdoe not found in catalog after 10 attempts".
Proof. reflexivity. Qed.

(** A lookup that succeeds on its third call: three lookups, two waits. *)
Example found_on_third_attempt :
  convergenceRetry (Stub.signInAfter 2) Stub.elapseCounted 10 jdoeRef
    {| dynamicUserEntityProvider := @None (DynamicUserEntityProvider nat);
       gruntime := {| world := 0; trace := [] |} |}
  = Some (Ok {| token := "t" |},
          {| dynamicUserEntityProvider := None;
             gruntime :=
               {| world := 3;
                  trace := [EvSignIn nat (QueryEntityRef jdoeRef) None; EvSleep nat 300;
                            EvSignIn nat (QueryEntityRef jdoeRef) None; EvSleep nat 300;
                            EvSignIn nat (QueryEntityRef jdoeRef) None] |} |}).
Proof. reflexivity. Qed.

Lemma notFound_exhausts_retries_witness :
  exists g',
    convergenceRetry (Stub.signInFails Stub.notFound) Stub.elapse 10 jdoeRef g0
    = Some (Throw (newError
              "User entity user:default/jdoe not found in catalog after 10 attempts"), g')
    /\ length (lookups (trace (gruntime g'))) = 10
    /\ sleeps (trace (gruntime g')) = repeat 300%Z 10.
Proof.
  destruct (@notFound_exhausts_retries unit nat (Stub.signInFails Stub.notFound)
              Stub.elapse jdoeRef 10 g0) as (g' & Hr & Ht & _).
  - intros w. exists Stub.notFound, w. split; reflexivity.
  - apply le_n.
  - exists g'. split; [exact Hr|]. rewrite Ht. split; reflexivity.
Defined.

(** C2 as stated fails: a failure named ['ConflictError'] does not reach the
    caller unchanged, a new error with a prefixed message does. *)
Lemma other_failure_is_rewrapped :
  Stub.signInFails Stub.conflict (QueryEntityRef jdoeRef) None tt
  = (Throw Stub.conflict, tt) /\
  isNotFound Stub.conflict = false /\
  convergenceRetry (Stub.signInFails Stub.conflict) Stub.elapse 10 jdoeRef g0
  = Some (Throw (newError "Failed to sign in with catalog user: boom"),
          {| dynamicUserEntityProvider := None;
             gruntime := {| world := tt;
                            trace := [EvSignIn nat (QueryEntityRef jdoeRef) None] |} |}) /\
  newError "Failed to sign in with catalog user: boom" <> Stub.conflict.
Proof.
  split; [reflexivity|]. split; [reflexivity|]. split; [reflexivity|discriminate].
Qed.

Lemma other_failure_aborts_at_once_witness :
  convergenceRetry (Stub.signInFails Stub.conflict) Stub.elapse 1 jdoeRef g0
  = Some (Throw (newError ("Failed to sign in with catalog user: "
                           ++ to_string (get Stub.conflict "message"))),
          {| dynamicUserEntityProvider := None;
             gruntime := {| world := tt;
                            trace := [] ++ [EvSignIn nat (QueryEntityRef jdoeRef) None] |} |}).
Proof.
  apply (@other_failure_aborts_at_once unit nat (Stub.signInFails Stub.conflict)
           Stub.elapse jdoeRef 1 g0 Stub.conflict tt).
  - reflexivity.
  - reflexivity.
  - reflexivity.
  - apply le_n.
Defined.

Lemma unshaped_failure_never_ends_witness :
  convergenceRetry (Stub.signInFails (VStr "catalog down")) Stub.elapse
    1000 jdoeRef g0 = None.
Proof.
  apply (@unshaped_failure_never_ends unit nat (Stub.signInFails (VStr "catalog down"))
           Stub.elapse jdoeRef).
  intros w. exists (VStr "catalog down"), w. split; reflexivity.
Defined.

(** C3 as stated fails: roles under [resource_access.app] are not read. *)
Lemma app_roles_are_not_read :
  entitlementsOf Stub.payloadApp = Ok [VStr "a"] /\
  map groupRef [VStr "a"] = ["group:default/a"] /\
  ~ In "group:default/b" (map groupRef [VStr "a"]).
Proof.
  split; [reflexivity|]. split; [reflexivity|].
  simpl. intros [H|[]]. discriminate.
Qed.

Lemma entitlements_to_group_refs_witness :
  entitlementsOf Stub.payloadOcto = Ok (map VStr (["a"] ++ ["b"])) /\
  get (spec (userEntityOf "jdoe@example.com" (map VStr (["a"] ++ ["b"])))) "memberOf"
  = VArr (map VStr (map (String.append "group:default/") (["a"] ++ ["b"]))).
Proof.
  destruct (proj2 entitlements_to_group_refs Stub.payloadOcto ["a"] ["b"]) as [He Hm].
  - left. reflexivity.
  - left. reflexivity.
  - split; [exact He|apply Hm].
Defined.

Lemma snapshot_one_slot_per_key_witness :
  exists snapshot,
    getAllUsers
      (upsertAll Stub.applyMutationOk [Stub.jdoe; Stub.asmith]
         {| this := {| connection := Some 7; userCache := [] |}; runtime := rt0 |})
    = (Ok snapshot,
       upsertAll Stub.applyMutationOk [Stub.jdoe; Stub.asmith]
         {| this := {| connection := Some 7; userCache := [] |}; runtime := rt0 |})
    /\ length snapshot = 2.
Proof.
  destruct (@snapshot_one_slot_per_key unit nat Stub.applyMutationOk
              [Stub.jdoe; Stub.asmith] (Some 7) rt0)
    as (snapshot & Hget & _ & _ & _ & _ & Hlen).
  exists snapshot. split; [exact Hget|]. apply Hlen.
  simpl. constructor.
  - intros [H|[]]. discriminate.
  - constructor; [intros []|constructor].
Defined.

Example repeated_upsert_keeps_last :
  fst (getAllUsers
         (upsertAll Stub.applyMutationOk [Stub.jdoe; Stub.asmith; Stub.jdoe]
            {| this := {| connection := None; userCache := [] |}; runtime := rt0 |}))
  = Ok [deferredOf Stub.jdoe; deferredOf Stub.asmith].
Proof. reflexivity. Qed.

Lemma publish_failure_kept_and_survived_witness :
  addOrUpdateUser (Stub.applyMutationFails Stub.conflict) Stub.jdoe
    {| this := {| connection := Some 7; userCache := [] |}; runtime := rt0 |}
  = (Throw Stub.conflict,
     {| this := {| connection := Some 7;
                   userCache := [(jdoeKey, deferredOf Stub.jdoe)] |};
        runtime :=
          {| world := tt;
             trace := [EvApplyMutation 7 (MutationFull [deferredOf Stub.jdoe]);
                       EvLogger nat LogError
                         "Failed to add/update user entity: User:default/jdoe"] |} |}).
Proof.
  apply (@publish_failure_kept_and_survived unit nat
           (Stub.signInFails Stub.notFound) (Stub.applyMutationFails Stub.conflict)
           Stub.elapse (Stub.parseAs Stub.payloadOcto) Stub.stringifyEntityRef
           Stub.jdoe {| connection := Some 7; userCache := [] |} rt0 7 Stub.conflict tt).
  - reflexivity.
  - reflexivity.
Defined.

(** C7 as stated fails: without a connection the slot of a key the cache
    holds is not deleted. *)
Lemma removeUser_unconnected_keeps_slot :
  map_get jdoeKey [(jdoeKey, deferredOf Stub.jdoe)] = Some (deferredOf Stub.jdoe) /\
  removeUser Stub.applyMutationOk jdoeKey
    {| this := {| connection := None; userCache := [(jdoeKey, deferredOf Stub.jdoe)] |};
       runtime := rt0 |}
  = (Ok tt,
     {| this := {| connection := None; userCache := [(jdoeKey, deferredOf Stub.jdoe)] |};
        runtime := rt0 |}).
Proof. split; reflexivity. Qed.

Lemma removeUser_deletes_and_republishes_witness :
  userCache (this (snd (removeUser Stub.applyMutationOk jdoeKey
    {| this := {| connection := Some 7;
                  userCache := [(jdoeKey, deferredOf Stub.jdoe)] |};
       runtime := rt0 |}))) = [] /\
  trace (runtime (snd (removeUser Stub.applyMutationOk jdoeKey
    {| this := {| connection := Some 7;
                  userCache := [(jdoeKey, deferredOf Stub.jdoe)] |};
       runtime := rt0 |}))) = [EvApplyMutation 7 (MutationFull [])].
Proof.
  destruct (proj1 (proj2 (@removeUser_deletes_and_republishes unit nat Stub.applyMutationOk))
              jdoeKey
              {| this := {| connection := Some 7;
                            userCache := [(jdoeKey, deferredOf Stub.jdoe)] |};
                 runtime := rt0 |}
              7 (deferredOf Stub.jdoe))
    as (Hcache & _ & _ & _ & Htrace).
  - reflexivity.
  - simpl. constructor; [intros []|constructor].
  - reflexivity.
  - split; [exact Hcache|exact Htrace].
Defined.

Lemma userEntity_name_and_profile_witness :
  exists e,
    buildUserEntity (Stub.parseAs Stub.payloadOcto) (Stub.info "jdoe@example.com") = Ok e /\
    before_first "@" "jdoe@example.com" (name (metadata e)) /\
    namespace (metadata e) = Some DEFAULT_NAMESPACE /\
    get (spec e) "profile"
    = VObj [("displayName", VStr (name (metadata e))); ("email", VStr "jdoe@example.com")].
Proof.
  apply (@userEntity_name_and_profile (Stub.parseAs Stub.payloadOcto)
           (Stub.info "jdoe@example.com") Stub.payloadOcto [VStr "a"; VStr "b"]
           "jdoe@example.com").
  - reflexivity.
  - reflexivity.
  - reflexivity.
  - discriminate.
Defined.

Example jdoe_entity :
  buildUserEntity (Stub.parseAs Stub.payloadOcto) (Stub.info "jdoe@example.com")
  = Ok {| apiVersion := "backstage.io/v1alpha1";
          kind := "User";
          metadata := {| name := "jdoe"; namespace := Some "default";
                         annotations := MANAGED_BY |};
          spec := VObj [("profile", VObj [("displayName", VStr "jdoe");
                                           ("email", VStr "jdoe@example.com")]);
                        ("memberOf", VArr [VStr "group:default/a";
                                           VStr "group:default/b"])] |}.
Proof. reflexivity. Qed.

Lemma uuid_mismatch_is_rejected_witness :
  oidcLdapUuidMatchingAnnotation (Stub.signInFails Stub.notFound)
    (Stub.decodeJwtAs (VObj [("ldap_uuid", VStr "u-2")])) None
    (Stub.info "jdoe@example.com") g0
  = (Throw (newError UUID_MISMATCH_MESSAGE), g0).
Proof.
  apply (@uuid_mismatch_is_rejected unit nat (Stub.signInFails Stub.notFound)
           (Stub.decodeJwtAs (VObj [("ldap_uuid", VStr "u-2")])) None
           (Stub.info "jdoe@example.com")
           {| tokenset := {| access_token := Some "h.p.s"; id_token := Some "h.p.s" |};
              userinfo := VObj [("ldap_uuid", VStr "u-1")] |}
           "h.p.s" (VObj [("ldap_uuid", VStr "u-2")]) g0).
  - reflexivity.
  - reflexivity.
  - reflexivity.
  - discriminate.
  - reflexivity.
  - reflexivity.
Defined.

Example uuid_match_looks_up :
  lookups (trace (gruntime (snd
    (oidcLdapUuidMatchingAnnotation (Stub.signInFails Stub.notFound)
       (Stub.decodeJwtAs (VObj [("ldap_uuid", VStr "u-1")])) None
       (Stub.info "jdoe@example.com") g0))))
  = [QueryAnnotations [(LDAP_UUID_ANNOTATION, VStr "u-1")]].
Proof. reflexivity. Qed.

(* ===================================================================== *)
(** ** The further properties on examples *)
(* ===================================================================== *)

Local Notation jdoeSlot := (jdoeKey, deferredOf Stub.jdoe).
Local Notation connected7 :=
  {| this := {| connection := Some 7; userCache := [jdoeSlot] |}; runtime := rt0 |}.
Local Notation octoInfo := (Stub.info "jdoe@example.com").

Lemma cache_stays_well_keyed_witness :
  locationKey (deferredOf Stub.asmith) = "dynamic-user-provider:User:default/asmith".
Proof.
  apply (proj2 (@cache_stays_well_keyed unit nat Stub.applyMutationOk
                  [CallAddOrUpdateUser nat Stub.jdoe; CallConnect 7;
                   CallAddOrUpdateUser nat Stub.asmith; CallRemoveUser nat jdoeKey;
                   CallGetAllUsers nat] rt0)
               "User:default/asmith" (deferredOf Stub.asmith)).
  simpl. left. reflexivity.
Defined.

Lemma first_publish_after_connect_carries_all_witness :
  exists events,
    trace (runtime (snd (addOrUpdateUser Stub.applyMutationOk Stub.asmith
             (snd (connect 7
                (upsertAll Stub.applyMutationOk [Stub.jdoe]
                   {| this := new_provider nat; runtime := rt0 |}))))))
    = [] ++ events /\
    publishes events
    = [(7, MutationFull [deferredOf Stub.jdoe; deferredOf Stub.asmith])].
Proof.
  destruct (@first_publish_after_connect_carries_all unit nat Stub.applyMutationOk
              [Stub.jdoe] 7 Stub.asmith rt0) as (events & Ht & Hp & Hall).
  pose proof (Hall Stub.jdoe (or_introl eq_refl)) as _.
  exists events. split; [exact Ht|exact Hp].
Defined.

Lemma removeUser_failure_not_rolled_back_witness :
  removeUser (Stub.applyMutationFails Stub.conflict) jdoeKey connected7
  = (Throw Stub.conflict,
     {| this := {| connection := Some 7; userCache := [] |};
        runtime := {| world := tt;
                      trace := [] ++ [EvApplyMutation 7 (MutationFull [])] |} |})
  /\ map_get jdoeKey (@nil (string * DeferredEntity)) = None.
Proof.
  apply (@removeUser_failure_not_rolled_back unit nat (Stub.applyMutationFails Stub.conflict)
           jdoeKey connected7 7 (deferredOf Stub.jdoe) Stub.conflict tt).
  - reflexivity.
  - simpl. constructor; [intros []|constructor].
  - reflexivity.
  - reflexivity.
Defined.

Lemma upsert_then_remove_restores_cache_witness :
  userCache (this (snd (removeUser Stub.applyMutationOk (entityKeyOf Stub.asmith)
                          (snd (addOrUpdateUser Stub.applyMutationOk Stub.asmith connected7)))))
  = [jdoeSlot].
Proof.
  apply (@upsert_then_remove_restores_cache unit nat Stub.applyMutationOk
           Stub.asmith connected7 7).
  - reflexivity.
  - reflexivity.
Defined.


Lemma entityKey_identifies_entity_witness :
  kind Stub.jdoe = kind Stub.jdoe /\ "default" = "default"
  /\ name (metadata Stub.jdoe) = name (metadata Stub.jdoe).
Proof.
  apply (@entityKey_identifies_entity Stub.jdoe Stub.jdoe "default" "default");
    reflexivity.
Defined.

(** Without the conditions of X6 two different users can share a key. *)
Example slash_in_namespace_collides :
  entityKeyOf {| apiVersion := "v1"; kind := "User";
                 metadata := {| name := "c"; namespace := Some "a/b"; annotations := [] |};
                 spec := VNull |}
  = entityKeyOf {| apiVersion := "v1"; kind := "User";
                   metadata := {| name := "b/c"; namespace := Some "a"; annotations := [] |};
                   spec := VNull |}.
Proof. reflexivity. Qed.

Lemma same_local_part_shares_slot_witness :
  map_get "User:default/jdoe"
    (userCache (this (snd (addOrUpdateUser Stub.applyMutationOk
                             (userEntityOf "jdoe@evil.example" [])
                             (snd (addOrUpdateUser Stub.applyMutationOk
                                     (userEntityOf "jdoe@example.com" [VStr "admins"])
                                     {| this := new_provider nat; runtime := rt0 |}))))))
  = Some (deferredOf (userEntityOf "jdoe@evil.example" [])).
Proof.
  apply (proj2 (@same_local_part_shares_slot unit nat Stub.applyMutationOk
                  "jdoe@example.com" "jdoe@evil.example" [VStr "admins"] []
                  {| this := new_provider nat; runtime := rt0 |})).
  reflexivity.
Defined.

Lemma uninitialised_provider_does_not_stop_sign_in_witness :
  oauth2TokenClaimResolver (Stub.signInAfter 0) Stub.applyMutationCounted Stub.elapseCounted
    (Stub.parseAs Stub.payloadOcto) Stub.stringifyEntityRef 10 octoInfo
    {| dynamicUserEntityProvider := None; gruntime := {| world := 0; trace := [] |} |}
  = Some (Ok {| token := "t" |},
          {| dynamicUserEntityProvider := None;
             gruntime :=
               {| world := 1;
                  trace :=
                    [EvConsoleError nat "Failed to add user to catalog via provider:"
                       (newError
                          "DynamicUserEntityProvider has not been initialized yet. Ensure the dynamicUsersModule has been registered and initialized.");
                     EvSignIn nat (QueryEntityRef jdoeRef) None] |} |}).
Proof.
  rewrite (@uninitialised_provider_does_not_stop_sign_in nat nat (Stub.signInAfter 0)
             Stub.applyMutationCounted Stub.elapseCounted (Stub.parseAs Stub.payloadOcto)
             Stub.stringifyEntityRef octoInfo
             (userEntityOf "jdoe@example.com" [VStr "a"; VStr "b"]) 10
             {| world := 0; trace := [] |} eq_refl).
  reflexivity.
Defined.

Lemma retry_settles_after_misses_witness :
  convergenceRetry (Stub.signInAfter 2) Stub.elapseCounted 10 jdoeRef
    {| dynamicUserEntityProvider := @None (DynamicUserEntityProvider nat);
       gruntime := {| world := 0; trace := [] |} |}
  = Some (Ok {| token := "t" |},
          {| dynamicUserEntityProvider := None;
             gruntime :=
               {| world := 3;
                  trace := [] ++ concat (repeat [EvSignIn nat (QueryEntityRef jdoeRef) None;
                                                 EvSleep nat 300] 2)
                           ++ [EvSignIn nat (QueryEntityRef jdoeRef) None] |} |}).
Proof.
  apply (@retry_settles_after_misses nat nat (Stub.signInAfter 2) Stub.elapseCounted
           jdoeRef 2 10
           {| dynamicUserEntityProvider := None; gruntime := {| world := 0; trace := [] |} |}
           (Ok {| token := "t" |}) 3).
  - apply (@SettlesLater nat (Stub.signInAfter 2) Stub.elapseCounted jdoeRef 1 0 1 3
             Stub.notFound); [reflexivity|reflexivity|].
    apply (@SettlesLater nat (Stub.signInAfter 2) Stub.elapseCounted jdoeRef 0 1 2 3
             Stub.notFound); [reflexivity|reflexivity|].
    apply SettlesFound. reflexivity.
  - repeat constructor.
  - repeat constructor.
Defined.


Lemma rejected_before_any_effect_witness :
  oauth2TokenClaimResolver (Stub.signInAfter 0) Stub.applyMutationCounted Stub.elapseCounted
    (Stub.parseAs Stub.payloadOcto) Stub.stringifyEntityRef 10
    {| profile := {| email := Some "" |}; fullProfile := fullProfile octoInfo |}
    {| dynamicUserEntityProvider := Some (new_provider nat);
       gruntime := {| world := 0; trace := [] |} |}
  = Some (Throw (newError "Login failed, user profile does not contain an email"),
          {| dynamicUserEntityProvider := Some (new_provider nat);
             gruntime := {| world := 0; trace := [] |} |}).
Proof.
  apply (proj1 (proj2 (proj2
           (@rejected_before_any_effect nat nat (Stub.signInAfter 0) Stub.applyMutationCounted
              Stub.elapseCounted (Stub.parseAs Stub.payloadOcto) Stub.stringifyEntityRef
              {| profile := {| email := Some "" |}; fullProfile := fullProfile octoInfo |}
              10
              {| dynamicUserEntityProvider := Some (new_provider nat);
                 gruntime := {| world := 0; trace := [] |} |})))
           Stub.payloadOcto).
  - reflexivity.
  - reflexivity.
Defined.

Lemma single_role_is_one_entitlement_witness :
  entitlementsOf
    (VObj [("groups", VArr [VStr "a"]);
           ("resource_access", VObj [("octo", VObj [("roles", VStr "admin")])])])
  = Ok (map VStr (["a"] ++ ["admin"])) /\
  get (spec (userEntityOf "jdoe@example.com" (map VStr (["a"] ++ ["admin"])))) "memberOf"
  = VArr (map VStr (map (String.append "group:default/") (["a"] ++ ["admin"]))).
Proof.
  apply (@single_role_is_one_entitlement
           (VObj [("groups", VArr [VStr "a"]);
                  ("resource_access", VObj [("octo", VObj [("roles", VStr "admin")])])])
           ["a"] "admin" "jdoe@example.com").
  - left. reflexivity.
  - reflexivity.
Defined.

Local Notation gCounted :=
  {| dynamicUserEntityProvider := @None (DynamicUserEntityProvider nat);
     gruntime := {| world := 0; trace := [] |} |}.
Local Notation sameUuid := (VObj [("ldap_uuid", VStr "u-1")]).


Lemma matching_uuid_looks_up_by_annotation_witness :
  oidcLdapUuidMatchingAnnotation (Stub.signInAfter 0) (Stub.decodeJwtAs sameUuid)
    (Some {| dangerouslyAllowSignInWithoutUserInCatalog := Some true; ldapUuidKey := None |})
    octoInfo gCounted
  = (Ok {| token := "t" |},
     {| dynamicUserEntityProvider := None;
        gruntime :=
          {| world := 1;
             trace := [] ++ [EvSignIn nat
                               (QueryAnnotations [("backstage.io/ldap-uuid", VStr "u-1")])
                               (Some {| dangerousEntityRefFallback := Some (VStr "u-1") |})] |} |}).
Proof.
  apply (@matching_uuid_looks_up_by_annotation nat nat (Stub.signInAfter 0)
           (Stub.decodeJwtAs sameUuid)
           (Some {| dangerouslyAllowSignInWithoutUserInCatalog := Some true;
                    ldapUuidKey := None |})
           octoInfo
           {| tokenset := {| access_token := Some "h.p.s"; id_token := Some "h.p.s" |};
              userinfo := VObj [("ldap_uuid", VStr "u-1")] |}
           "h.p.s" sameUuid gCounted (Ok {| token := "t" |}) 1).
  - reflexivity.
  - reflexivity.
  - reflexivity.
  - discriminate.
  - reflexivity.
  - reflexivity.
  - reflexivity.
Defined.


Lemma by_name_needs_a_name_witness :
  exists n h, VStr "jdoe" = VStr n /\ n <> "" /\ Stub.headers h = Some n.
Proof.
  apply (proj2 by_name_needs_a_name None None Stub.headers (VStr "jdoe")
           {| dangerousEntityRefFallback := None |}).
  reflexivity.
Defined.

Example preferred_username_signs_in :
  preferredUsernameMatchingUserEntityName
    (Some {| ByName.dangerouslyAllowSignInWithoutUserInCatalog := Some true |})
    {| profile := {| email := None |};
       fullProfile := Some {| tokenset := {| access_token := None; id_token := None |};
                              userinfo := VObj [("preferred_username", VStr "jdoe")] |} |}
  = SignInByName (VStr "jdoe") {| dangerousEntityRefFallback := Some (VStr "jdoe") |}.
Proof. reflexivity. Qed.

Lemma override_header_is_the_only_one_read_witness :
  oauth2ProxyUserHeaderMatchingUserEntityName None (Some "x-gateway-user") Stub.headers
  = Rejected (newError "Request did not contain a user").
Proof.
  apply (proj2 (@override_header_is_the_only_one_read None "x-gateway-user"
                  Stub.headers Stub.headers ltac:(discriminate))).
  reflexivity.
Defined.

Lemma forwarded_headers_in_order_witness :
  oauth2ProxyUserHeaderMatchingUserEntityName None None Stub.headers
  = SignInByName (VStr "jdoe")
      {| dangerousEntityRefFallback := fallbackFor None (VStr "jdoe") |}.
Proof.
  apply (proj1 (@forwarded_headers_in_order None None Stub.headers eq_refl) "jdoe").
  - reflexivity.
  - discriminate.
Defined.

Lemma user_is_cached_before_first_lookup_witness :
  oauth2TokenClaimResolver (Stub.signInAfter 0) Stub.applyMutationCounted Stub.elapseCounted
    (Stub.parseAs Stub.payloadOcto) Stub.stringifyEntityRef 10 octoInfo
    {| dynamicUserEntityProvider := Some (new_provider nat);
       gruntime := {| world := 0; trace := [] |} |}
  = convergenceRetry (Stub.signInAfter 0) Stub.elapseCounted 10
      (Stub.stringifyEntityRef (userEntityOf "jdoe@example.com" [VStr "a"; VStr "b"]))
      (snd (provision Stub.applyMutationCounted
              (userEntityOf "jdoe@example.com" [VStr "a"; VStr "b"])
              {| dynamicUserEntityProvider := Some (new_provider nat);
                 gruntime := {| world := 0; trace := [] |} |})).
Proof.
  apply (@user_is_cached_before_first_lookup nat nat (Stub.signInAfter 0)
           Stub.applyMutationCounted Stub.elapseCounted (Stub.parseAs Stub.payloadOcto)
           Stub.stringifyEntityRef octoInfo
           (userEntityOf "jdoe@example.com" [VStr "a"; VStr "b"]) 10
           {| dynamicUserEntityProvider := Some (new_provider nat);
              gruntime := {| world := 0; trace := [] |} |}
           (new_provider nat) eq_refl eq_refl).
Defined.

Lemma username_edge_cases_witness : usernameOf "jdoe" = "jdoe".
Proof.
  apply (proj1 (proj2 username_edge_cases) "jdoe"). reflexivity.
Defined.

Lemma retry_never_touches_provider_witness :
  dynamicUserEntityProvider
    {| dynamicUserEntityProvider := @None (DynamicUserEntityProvider nat);
       gruntime := {| world := 1; trace := [EvSignIn nat (QueryEntityRef jdoeRef) None] |} |}
  = dynamicUserEntityProvider gCounted /\
  exists events,
    [EvSignIn nat (QueryEntityRef jdoeRef) None] = [] ++ events /\ publishes events = [].
Proof.
  apply (@retry_never_touches_provider nat nat (Stub.signInAfter 0) Stub.elapseCounted
           jdoeRef 10 gCounted
           {| dynamicUserEntityProvider := None;
              gruntime := {| world := 1;
                             trace := [EvSignIn nat (QueryEntityRef jdoeRef) None] |} |}
           (Ok {| token := "t" |})).
  reflexivity.
Defined.
